(** * obsidian-capture: the exclusion engine ([src/obsidian_capture/exclude.py])

    A shallow embedding of the selector classifier, the selector validator,
    the exclusion applier, the content-emptiness detector and the summary
    aggregator, together with the properties the specification states about
    them.

    Modelling conventions.
    - A Python [str] is a [string]; a character is read as the code point
      0..255 it denotes (ASCII and the Latin-1 block), and the Unicode-aware
      primitives [str.lower], [str.strip] and the regex class [\w] follow the
      Unicode tables on that range.
    - The parse tree is an owned tree of [Tag] objects.  Every [Tag] carries
      a [uid] standing for the identity of the Python object, because
      [decompose] acts on an object, not on a value.
    - The tree is mutated in place by the source; here every function that
      mutates it takes the tree and returns the new one.
    - [soup.select] belongs to the CSS engine behind BeautifulSoup, which is
      not part of the repository: it is a parameter ([select]) of the section
      holding the engine's clients, and may return matches or raise.
    - [int / int] of two counts is kept as the exact quotient in [Q]; Python
      rounds that quotient to the nearest double, which is the same number
      for the comparisons made here as long as counts stay below 2^50. *)

From Stdlib Require Import QArith.
From stdpp Require Import base list strings pretty.
From Stdlib Require Import Ascii String.

Local Open Scope string_scope.
Local Open Scope list_scope.

(** ** Python values and strings *)

Module Py.

(** The objects a selector list can hold.  The type annotation says
    [List[str]], the code also guards against everything else. *)
Inductive PyObj : Type :=
| PyStr (s : string)
| PyNone
| PyBool (b : bool)
| PyInt (z : Z).

(** [bool(x)] *)
Definition truthy (x : PyObj) : bool :=
  match x with
  | PyStr s => negb (String.eqb s EmptyString)
  | PyNone => false
  | PyBool b => b
  | PyInt z => negb (Z.eqb z 0)
  end.

(** [isinstance(x, str)] *)
Definition isinstance_str (x : PyObj) : bool :=
  match x with PyStr _ => true | _ => false end.

(** [x or y] *)
Definition py_or (x y : PyObj) : PyObj := if truthy x then x else y.

Definition code (c : ascii) : N := N_of_ascii c.

Definition in_range (lo hi n : N) : bool := (N.leb lo n && N.leb n hi)%bool.

(** [c.isspace()], the characters [str.strip()] removes. *)
Definition isspace (c : ascii) : bool :=
  let n := code c in
  (in_range 9 13 n || in_range 28 32 n || N.eqb n 133 || N.eqb n 160)%bool.

(** Cased upper-case letters of the range: A-Z and the Latin-1 capitals
    (U+00C0-U+00DE without the multiplication sign U+00D7). *)
Definition isupper (c : ascii) : bool :=
  let n := code c in
  (in_range 65 90 n || (in_range 192 222 n && negb (N.eqb n 215)))%bool.

Definition lower_char (c : ascii) : ascii :=
  if isupper c then ascii_of_N (code c + 32) else c.

(** [s.lower()] *)
Fixpoint lower (s : string) : string :=
  match s with
  | EmptyString => EmptyString
  | String c r => String (lower_char c) (lower r)
  end.

Fixpoint lstrip (s : string) : string :=
  match s with
  | EmptyString => EmptyString
  | String c r => if isspace c then lstrip r else s
  end.

Fixpoint rstrip (s : string) : string :=
  match s with
  | EmptyString => EmptyString
  | String c r =>
      match rstrip r with
      | EmptyString => if isspace c then EmptyString else String c EmptyString
      | r' => String c r'
      end
  end.

(** [s.strip()] *)
Definition strip (s : string) : string := rstrip (lstrip s).

(** The regex class [\w] on [str] patterns: alphanumeric in the Unicode
    sense, or the underscore. *)
Definition isword (c : ascii) : bool :=
  let n := code c in
  (in_range 48 57 n || in_range 65 90 n || N.eqb n 95 || in_range 97 122 n
   || N.eqb n 170 || in_range 178 179 n || N.eqb n 181 || in_range 185 186 n
   || in_range 188 190 n
   || (in_range 192 255 n && negb (N.eqb n 215) && negb (N.eqb n 247)))%bool.

(** [s.startswith(p)] *)
Fixpoint startswith (s p : string) {struct p} : bool :=
  match p, s with
  | EmptyString, _ => true
  | String a p', String b s' => (Ascii.eqb a b && startswith s' p')%bool
  | String _ _, EmptyString => false
  end.

(** [needle in haystack] *)
Fixpoint contains (haystack needle : string) : bool :=
  (startswith haystack needle
   || match haystack with
      | EmptyString => false
      | String _ r => contains r needle
      end)%bool.

(** [str(n)] for an [int] *)
Definition str_of_int (n : Z) : string := pretty n.

(** [len(l)] *)
Definition len {A} (l : list A) : Z := Z.of_nat (List.length l).

(** [bool(l)] for a list *)
Definition nonempty {A} (l : list A) : bool :=
  match l with [] => false | _ :: _ => true end.

End Py.

(** ** The two regular expressions of the classifier *)

Module Re.
Import Py.

Inductive item : Type :=
| AtStart                (* ^  *)
| Literal (c : ascii)    (* an ordinary character *)
| WordBoundary.          (* \b *)

Definition pattern := list item.

Definition isword_at (c : option ascii) : bool :=
  match c with Some a => isword a | None => false end.

Definition peek (s : string) : option ascii :=
  match s with String c _ => Some c | EmptyString => None end.

(** Match [p] against [s], the character before the current position
    being [prev] ([None] at the start of the string). *)
Fixpoint match_here (p : pattern) (prev : option ascii) (s : string) : bool :=
  match p with
  | [] => true
  | AtStart :: p' =>
      match prev with
      | None => match_here p' prev s
      | Some _ => false
      end
  | Literal c :: p' =>
      match s with
      | String d s' => if Ascii.eqb c d then match_here p' (Some d) s' else false
      | EmptyString => false
      end
  | WordBoundary :: p' =>
      if xorb (isword_at prev) (isword_at (peek s))
      then match_here p' prev s
      else false
  end.

(** [re.match(p, s)] as a truth value: the match is tried at position 0
    only. *)
Definition re_match (p : pattern) (s : string) : bool := match_here p None s.

Fixpoint literals (s : string) : pattern :=
  match s with
  | EmptyString => []
  | String c r => Literal c :: literals r
  end.

(** The character before the position reached once [w] has been read. *)
Fixpoint before_end (prev : option ascii) (w : string) : option ascii :=
  match w with
  | EmptyString => prev
  | String c r => before_end (Some c) r
  end.

(** [r"^word\b"] *)
Definition anchored_word (w : string) : pattern :=
  AtStart :: literals w ++ [WordBoundary].

End Re.

(** ** Selector classifier *)

Import Py.

Definition protected_patterns : list Re.pattern :=
  [ Re.anchored_word "html";    (* r"^html\b" *)
    Re.anchored_word "body" ].  (* r"^body\b" *)

Definition is_protected_selector (selector : PyObj) : bool :=
  if (negb (truthy selector) || negb (isinstance_str selector))%bool then false
  else
    match selector with
    | PyStr s =>
        let selector_lower := strip (lower s) in
        existsb (fun pattern => Re.re_match pattern selector_lower)
                protected_patterns
    | _ => false
    end.

(** ** The parse tree *)

Module Soup.

(** The classes of string the HTML tree builder gives to the text inside
    its string containers ([HTMLTreeBuilder.DEFAULT_STRING_CONTAINERS]). *)
Inductive StringContainer : Type :=
| RubyTextString
| RubyParenthesisString
| Stylesheet
| Script
| TemplateString.

(** A [Tag] object and what it can contain.  [EString] stands for a string
    of class [NavigableString] or [CData]; [ESpecial] for a string of one
    of the container classes, which the parser gives to the text inside
    [rt], [rp], [style], [script] and [template]; [EComment] for the
    classes no tag reads (comments, declarations, and the like). *)
Inductive Tag : Type :=
| mkTag (uid : nat) (name : string) (attrs : list (string * string))
        (contents : list PageElement)
with PageElement : Type :=
| ETag (t : Tag)
| EString (s : string)
| EComment (s : string)
| ESpecial (k : StringContainer) (s : string).

Definition uid (t : Tag) : nat := let 'mkTag u _ _ _ := t in u.
Definition name (t : Tag) : string := let 'mkTag _ n _ _ := t in n.
Definition attrs (t : Tag) : list (string * string) := let 'mkTag _ _ a _ := t in a.
Definition contents (t : Tag) : list PageElement := let 'mkTag _ _ _ c := t in c.

(** The document object is itself a [Tag] (named [[document]]) whose
    contents are the top-level nodes. *)
Definition BeautifulSoup := Tag.

(** Structural induction through the nested [contents]. *)
Definition Tag_rect' (P : Tag -> Type) (Q : list PageElement -> Type)
    (Hnil : Q [])
    (Htag : forall t cs, P t -> Q cs -> Q (ETag t :: cs))
    (Hstr : forall s cs, Q cs -> Q (EString s :: cs))
    (Hcom : forall s cs, Q cs -> Q (EComment s :: cs))
    (Hspe : forall k s cs, Q cs -> Q (ESpecial k s :: cs))
    (Hmk : forall u n a cs, Q cs -> P (mkTag u n a cs)) :
  forall t, P t :=
  fix go (t : Tag) : P t :=
    match t with
    | mkTag u n a cs =>
        Hmk u n a cs
          ((fix go_list (l : list PageElement) : Q l :=
              match l with
              | [] => Hnil
              | ETag t' :: r => Htag t' r (go t') (go_list r)
              | EString s :: r => Hstr s r (go_list r)
              | EComment s :: r => Hcom s r (go_list r)
              | ESpecial k s :: r => Hspe k s r (go_list r)
              end) cs)
    end.

(** [tag.descendants], restricted to the [Tag] objects, in document order.
    The tag itself is not one of its descendants. *)
Fixpoint descendants (t : Tag) : list Tag :=
  match t with
  | mkTag _ _ _ cs =>
      flat_map (fun c => match c with
                         | ETag t' => t' :: descendants t'
                         | _ => []
                         end) cs
  end.

(** [tag.find_all()] *)
Definition find_all (t : Tag) : list Tag := descendants t.

(** [tag.find_all(names)]: the descendants whose name is one of [names];
    [find_all("img")] is [find_all_named ["img"]]. *)
Definition find_all_named (names : list string) (t : Tag) : list Tag :=
  filter (fun d => name d ∈ names) (descendants t).

(** [builder.string_containers.get(name)] for the HTML tree builder. *)
Definition string_containers (name : string) : option StringContainer :=
  if String.eqb name "rt" then Some RubyTextString
  else if String.eqb name "rp" then Some RubyParenthesisString
  else if String.eqb name "style" then Some Stylesheet
  else if String.eqb name "script" then Some Script
  else if String.eqb name "template" then Some TemplateString
  else None.

(** [tag.interesting_string_types]: the class of its container for a tag
    that is a string container, and otherwise ([None]) the default,
    [NavigableString] and [CData]. *)
Definition interesting_string_types (t : Tag) : option StringContainer :=
  string_containers (name t).

Definition container_eqb (a b : StringContainer) : bool :=
  match a, b with
  | RubyTextString, RubyTextString
  | RubyParenthesisString, RubyParenthesisString
  | Stylesheet, Stylesheet
  | Script, Script
  | TemplateString, TemplateString => true
  | _, _ => false
  end.

(** Whether a string of a child is of one of the classes [types]. *)
Definition wanted (types : option StringContainer) (c : PageElement)
  : list string :=
  match c, types with
  | EString s, None => [s]
  | ESpecial k s, Some k' => if container_eqb k k' then [s] else []
  | _, _ => []
  end.

(** [tag._all_strings(types=types)]: the strings below a tag, at any depth,
    whose class is one of [types], in document order. *)
Fixpoint strings_of (types : option StringContainer) (t : Tag) : list string :=
  match t with
  | mkTag _ _ _ cs =>
      flat_map (fun c => match c with
                         | ETag t' => strings_of types t'
                         | other => wanted types other
                         end) cs
  end.

(** The strings [get_text] reads when it is called on a tag: those of the
    tag's own [interesting_string_types]. *)
Definition all_strings (t : Tag) : list string :=
  strings_of (interesting_string_types t) t.

(** [tag.get_text(strip=True)]: every string is stripped, the ones that
    become empty are dropped, the rest are joined without a separator. *)
Definition get_text_strip (t : Tag) : string :=
  String.concat EmptyString
    (filter (fun s => s ≠ EmptyString) (map Py.strip (all_strings t))).

(** What is left of [t] once the object [u] has been taken out from below
    it.  An object that is not below [t] (any more) leaves [t] as it is; in
    a tree built by the parser no two tags share a [uid]. *)
Fixpoint detach (u : nat) (t : Tag) : Tag :=
  match t with
  | mkTag i n a cs =>
      mkTag i n a
        (flat_map (fun c => match c with
                            | ETag t' =>
                                if Nat.eqb (uid t') u then []
                                else [ETag (detach u t')]
                            | other => [other]
                            end) cs)
  end.

(** [element.decompose()], seen from the document [soup]: the element and
    everything below it leave the tree.  The CSS engine yields descendants
    of the document only, never the document object itself. *)
Definition decompose (element : Tag) (soup : BeautifulSoup) : BeautifulSoup :=
  detach (uid element) soup.

(** [for element in elements: element.decompose()] *)
Definition decompose_all (elements : list Tag) (soup : BeautifulSoup)
  : BeautifulSoup :=
  fold_left (fun s e => decompose e s) elements soup.

End Soup.

(** ** Data model *)

Import Soup.

(** The selector [[role="main"]]; the character of code 34 is the double
    quote. *)
Definition role_main : string :=
  "[role=" +:+ String "034"%char "main" +:+ String "034"%char "]".

Definition PRIMARY_CONTENT_SELECTORS : list string :=
  [ "article"; "main"; role_main ].

(** The fields [selector] and [reason] of [ExclusionSelector] carry the
    prefix [es_], the field [elements_removed] of [ExclusionSummary] the
    prefix [total_]: [SelectorResult] has fields of the same names. *)
Record ExclusionSelector : Type := mkExclusionSelector {
  es_selector : PyObj;
  es_reason : option string
}.

Record SelectorResult : Type := mkSelectorResult {
  selector : PyObj;
  success : bool;
  elements_removed : Z;
  error_message : option string
}.

Record ExclusionSummary : Type := mkExclusionSummary {
  selectors_processed : Z;
  total_elements_removed : Z;
  original_element_count : Z;
  successful_selectors : Z;
  failed_selectors : Z;
  empty_primary_content_warning : bool
}.

(** [int / int], the exact quotient (the caller excludes a zero divisor). *)
Definition true_div (a b : Z) : Q := (inject_Z a / inject_Z b)%Q.

(** The float literal [0.4]. *)
Definition warning_threshold : Q := (4 # 10)%Q.

(** The property [ExclusionSummary.removal_ratio] *)
Definition removal_ratio (self : ExclusionSummary) : Q :=
  if Z.eqb (original_element_count self) 0 then 0%Q
  else true_div (total_elements_removed self) (original_element_count self).

(** The property [ExclusionSummary.high_removal_warning] *)
Definition high_removal_warning (self : ExclusionSummary) : bool :=
  Qle_bool warning_threshold (removal_ratio self).

Record ValidationResult : Type := mkValidationResult {
  valid : list ExclusionSelector;
  invalid : list ExclusionSelector;
  total_count : Z;
  cap_exceeded : bool
}.

(** The exceptions that can leave a function of the module:
    [TooManySelectorError], and whatever the CSS engine raises, kept with
    its text [str(e)]. *)
Inductive Exception : Type :=
| TooManySelectorError (msg : string)
| EngineException (msg : string).

(** A computation that returns or raises. *)
Definition raising (A : Type) : Type := Exception + A.

Definition ret {A} (a : A) : raising A := inr a.
Definition raise {A} (e : Exception) : raising A := inl e.
Definition bind {A B} (m : raising A) (k : A -> raising B) : raising B :=
  match m with
  | inl e => inl e
  | inr a => k a
  end.

Notation "'let!' x ':=' m 'in' k" := (bind m (fun x => k))
  (at level 10, x name, m at level 100, k at level 200).

Record ExclusionResult : Type := mkExclusionResult {
  soup : BeautifulSoup;
  summary : ExclusionSummary;
  selector_results : list SelectorResult
}.

(** What a call of [soup.select(selector)] can do: return the matching
    tags, or raise an exception whose text is [text]. *)
Inductive Selected : Type :=
| Matches (elements : list Tag)
| Raises (text : string).

(** [calculate_removal_ratio] *)
Definition calculate_removal_ratio (removed_elements original_elements : Z) : Q :=
  if Z.eqb original_elements 0 then 0%Q
  else true_div removed_elements original_elements.

(** [should_warn_high_removal] *)
Definition should_warn_high_removal (ratio : Q) : bool :=
  Qle_bool warning_threshold ratio.

(** [has_meaningful_content] *)
Definition has_meaningful_content (element : Tag) : bool :=
  if nonempty (find_all_named ["img"] element) then true
  else if nonempty (find_all_named ["a"] element) then true
  else
    let text := get_text_strip element in
    if (negb (String.eqb text EmptyString)
        && Z.ltb 0 (Z.of_nat (String.length text)))%bool then true
    else
      let content_tags :=
        find_all_named
          ["video"; "audio"; "iframe"; "form"; "table"; "canvas"; "svg"]
          element in
      if nonempty content_tags then true else false.

(** [is_content_element_empty] *)
Definition is_content_element_empty (element : Tag) : bool :=
  negb (has_meaningful_content element).

(** ** The clients of the CSS engine *)

Section Engine.

(** [soup.select(selector)] of the CSS engine. *)
Variable select : BeautifulSoup -> PyObj -> Selected.

(** [BeautifulSoup("<div></div>", "html.parser")] *)
Definition scratch_soup : BeautifulSoup :=
  mkTag 0 "[document]" [] [ETag (mkTag 1 "div" [] [])].

Definition too_many_message (total_count max_selectors : Z) : string :=
  "Too many selectors: " +:+ str_of_int total_count
    +:+ " provided, limit is " +:+ str_of_int max_selectors.

(** One turn of the validation loop over the lists [valid], [invalid]. *)
Definition validate_step
    (acc : list ExclusionSelector * list ExclusionSelector)
    (selector : PyObj) : list ExclusionSelector * list ExclusionSelector :=
  let '(valid, invalid) := acc in
  if (negb (truthy selector) || negb (isinstance_str selector))%bool then
    (valid,
     invalid ++ [mkExclusionSelector (py_or selector (PyStr EmptyString))
                   (Some "Empty or invalid selector")])
  else if is_protected_selector selector then
    (valid,
     invalid ++ [mkExclusionSelector selector
                   (Some "Protected selector (html/body cannot be excluded)")])
  else
    match select scratch_soup selector with
    | Matches _ => (valid ++ [mkExclusionSelector selector None], invalid)
    | Raises e =>
        (valid,
         invalid ++ [mkExclusionSelector selector
                       (Some ("Invalid CSS selector syntax: " +:+ e))])
    end.

(** [validate_selectors] *)
Definition validate_selectors (selectors : list PyObj) (max_selectors : Z)
  : raising ValidationResult :=
  let total_count := len selectors in
  if Z.ltb max_selectors total_count then
    raise (TooManySelectorError (too_many_message total_count max_selectors))
  else
    let '(valid, invalid) := fold_left validate_step selectors ([], []) in
    ret (mkValidationResult valid invalid total_count false).

(** The collecting loop of [detect_empty_primary_content]. *)
Fixpoint collect_primary (soup : BeautifulSoup) (selectors : list string)
    (found_primary_elements : list Tag) : raising (list Tag) :=
  match selectors with
  | [] => ret found_primary_elements
  | selector :: rest =>
      match select soup (PyStr selector) with
      | Matches elements =>
          collect_primary soup rest (found_primary_elements ++ elements)
      | Raises e => raise (EngineException e)
      end
  end.

(** [detect_empty_primary_content] *)
Definition detect_empty_primary_content (soup : BeautifulSoup) : raising bool :=
  let! found_primary_elements :=
    collect_primary soup PRIMARY_CONTENT_SELECTORS [] in
  if negb (nonempty found_primary_elements) then ret true
  else if existsb has_meaningful_content found_primary_elements then ret false
  else ret true.

(** [sum(...)] over the results *)
Definition sum_Z (l : list Z) : Z := fold_right Z.add 0%Z l.

(** [aggregate_exclusion_summary] *)
Definition aggregate_exclusion_summary (selector_results : list SelectorResult)
    (original_count : Z) (soup : BeautifulSoup) : raising ExclusionSummary :=
  let selectors_processed := len selector_results in
  let successful_selectors :=
    sum_Z (map (fun _ => 1%Z) (filter (fun r => success r = true) selector_results)) in
  let failed_selectors :=
    sum_Z (map (fun _ => 1%Z) (filter (fun r => success r = false) selector_results)) in
  let elements_removed := sum_Z (map elements_removed selector_results) in
  let! empty_primary_warning := detect_empty_primary_content soup in
  ret (mkExclusionSummary selectors_processed elements_removed original_count
         successful_selectors failed_selectors empty_primary_warning).

(** The state of the first loop of [apply_exclusions]: the tree, the
    outcome list and the running total. *)
Definition apply_state : Type := BeautifulSoup * list SelectorResult * Z.

(** One turn of that loop, with its [try]/[except]. *)
Definition apply_step (st : apply_state) (exclusion_selector : ExclusionSelector)
  : apply_state :=
  let '(soup, selector_results, total_removed) := st in
  let selector := es_selector exclusion_selector in
  match select soup selector with
  | Matches matching_elements =>
      let elements_removed := len matching_elements in
      let soup' := decompose_all matching_elements soup in
      (soup',
       selector_results ++ [mkSelectorResult selector true elements_removed None],
       (total_removed + elements_removed)%Z)
  | Raises e =>
      (soup,
       selector_results
         ++ [mkSelectorResult selector false 0
               (Some ("Failed to apply selector: " +:+ e))],
       total_removed)
  end.

(** One turn of the second loop, over the rejected selectors. *)
Definition reject_step (selector_results : list SelectorResult)
    (exclusion_selector : ExclusionSelector) : list SelectorResult :=
  selector_results
    ++ [mkSelectorResult (es_selector exclusion_selector) false 0
          (es_reason exclusion_selector)].

(** [apply_exclusions].  The first component is the tree as the call
    leaves it, whether it returns or raises. *)
Definition apply_exclusions (soup : BeautifulSoup) (selectors : list PyObj)
  : BeautifulSoup * raising ExclusionResult :=
  let original_element_count := len (find_all soup) in
  match validate_selectors selectors 100 with
  | inl e => (soup, raise e)
  | inr validation =>
      let '(soup', selector_results, total_removed) :=
        fold_left apply_step (valid validation) (soup, [], 0%Z) in
      let selector_results :=
        fold_left reject_step (invalid validation) selector_results in
      (soup',
       let! summary := aggregate_exclusion_summary selector_results
                         original_element_count soup' in
       ret (mkExclusionResult soup' summary selector_results))
  end.

End Engine.

(** ** Diagnostics

    What the logging functions hand to the [logging] module: one record for
    each call of [logger.warning], [logger.info], [logger.error] or
    [logger.debug], with the name of the logger it is given to. *)

Module Log.

Inductive Level : Type := DEBUG | INFO | WARNING | ERROR.

(** The values the [extra] dictionaries hold. *)
Inductive ExtraValue : Type :=
| XStr (s : string)
| XInt (n : Z)
| XFloat (x : Q)
| XObj (o : PyObj)
| XOptStr (o : option string).

Record LogRecord : Type := mkLogRecord {
  logger_name : string;
  level : Level;
  message : string;
  extra : list (string * ExtraValue)
}.

Definition level_eqb (a b : Level) : bool :=
  match a, b with
  | DEBUG, DEBUG | INFO, INFO | WARNING, WARNING | ERROR, ERROR => true
  | _, _ => false
  end.

(** [key in extra] and [extra[key]] *)
Definition lookup_extra (key : string) (r : LogRecord) : option ExtraValue :=
  match List.find (fun kv => String.eqb (fst kv) key) (extra r) with
  | Some kv => Some (snd kv)
  | None => None
  end.

End Log.

Import Log.

(** [get_logger] of [logging.py]: the name of the logger it returns. *)
Definition get_logger (name : option string) : string :=
  match name with
  | Some n => if String.eqb n EmptyString then "obsidian_capture" else n
  | None => "obsidian_capture"
  end.

(** The field [soup] of a result, under a name that local variables do not
    hide. *)
Definition result_soup (result : ExclusionResult) : BeautifulSoup := soup result.

Section Diagnostics.

(** [format(x, ".1%")] of the Python runtime. *)
Variable format_percent : Q -> string.

(** [type(error).__name__]; the class of what the engine raised is not
    part of [Exception]. *)
Variable type_name : Exception -> string.

Definition selector_failed_record (logger : string) (result : SelectorResult)
  : LogRecord :=
  mkLogRecord logger WARNING "Exclusion selector failed"
    [ ("selector", XObj (selector result));
      ("error", XOptStr (error_message result));
      ("operation", XStr "exclude") ].

(** [log_exclusion_warnings] *)
Definition log_exclusion_warnings (exclusion_result : ExclusionResult)
    (logger_name : option string) : list LogRecord :=
  let logger := get_logger logger_name in
  let summary := summary exclusion_result in
  let invalid_selectors :=
    filter (fun r => success r = false) (selector_results exclusion_result) in
  (if nonempty invalid_selectors
   then map (selector_failed_record logger) invalid_selectors
   else [])
  ++ (if high_removal_warning summary
      then [ mkLogRecord logger WARNING
               ("High removal ratio detected: "
                  +:+ format_percent (removal_ratio summary)
                  +:+ " of elements removed ("
                  +:+ str_of_int (total_elements_removed summary) +:+ "/"
                  +:+ str_of_int (original_element_count summary) +:+ ")")
               [ ("removal_ratio", XFloat (removal_ratio summary));
                 ("elements_removed", XInt (total_elements_removed summary));
                 ("original_count", XInt (original_element_count summary));
                 ("warning_type", XStr "high_removal") ] ]
      else [])
  ++ (if empty_primary_content_warning summary
      then [ mkLogRecord logger WARNING
               "Primary content elements (article, main) appear to be empty after exclusions"
               [ ("warning_type", XStr "empty_primary_content");
                 ("elements_removed", XInt (total_elements_removed summary));
                 ("operation", XStr "exclude") ] ]
      else [])
  ++ (if Z.ltb 0 (total_elements_removed summary)
      then [ mkLogRecord logger INFO
               ("Exclusion summary: "
                  +:+ str_of_int (successful_selectors summary) +:+ "/"
                  +:+ str_of_int (selectors_processed summary)
                  +:+ " selectors successful, "
                  +:+ str_of_int (total_elements_removed summary)
                  +:+ " elements removed ("
                  +:+ format_percent (removal_ratio summary)
                  +:+ " of document)")
               [ ("selectors_processed", XInt (selectors_processed summary));
                 ("successful_selectors", XInt (successful_selectors summary));
                 ("failed_selectors", XInt (failed_selectors summary));
                 ("elements_removed", XInt (total_elements_removed summary));
                 ("removal_ratio", XFloat (removal_ratio summary));
                 ("operation", XStr "exclude") ] ]
      else []).

(** [isinstance(error, TooManySelectorError)] *)
Definition is_too_many (error : Exception) : bool :=
  match error with
  | TooManySelectorError _ => true
  | EngineException _ => false
  end.

(** [str(error)] *)
Definition str_of_error (error : Exception) : string :=
  match error with
  | TooManySelectorError msg => msg
  | EngineException msg => msg
  end.

(** [log_exclusion_errors] *)
Definition log_exclusion_errors (error : Exception) (selectors : list PyObj)
    (logger_name : option string) : list LogRecord :=
  let logger := get_logger logger_name in
  if is_too_many error then
    [ mkLogRecord logger WARNING
        ("Too many exclusion selectors provided: "
           +:+ str_of_int (len selectors) +:+ " selectors exceed limit")
        [ ("selector_count", XInt (len selectors));
          ("error_type", XStr "too_many_selectors");
          ("operation", XStr "exclude") ] ]
  else
    [ mkLogRecord logger ERROR
        ("Exclusion operation failed: " +:+ str_of_error error)
        [ ("error", XStr (str_of_error error));
          ("selector_count", XInt (len selectors));
          ("error_type", XStr (type_name error));
          ("operation", XStr "exclude") ] ].

(** ** The exclusion step of the orchestrator ([capture.py]) *)

(** The HTML parser and serialiser of BeautifulSoup:
    [BeautifulSoup(html, "html.parser")] and [str(soup)]. *)
Variable parse : string -> BeautifulSoup.
Variable render : BeautifulSoup -> string.

Variable select : BeautifulSoup -> PyObj -> Selected.

(** [__name__] of the orchestrator's module. *)
Variable module_name : string.

(** What the timer of [measure_time] measures: the elapsed time when the
    [with] block is left, in seconds and in milliseconds, and the elapsed
    milliseconds read by [timer.elapsed_ms()] after it. *)
Variable finish_seconds : Q.
Variable finish_ms : Z.
Variable read_ms : Z.

(** [measure_time(operation_name, logger)]: what it logs when the block is
    entered and when it is left, normally or by an exception. *)
Definition measure_time_enter (operation_name logger : string) : list LogRecord :=
  [ mkLogRecord logger DEBUG ("Starting " +:+ operation_name) [] ].

Definition measure_time_exit (operation_name logger : string) : list LogRecord :=
  [ mkLogRecord logger INFO ("Completed " +:+ operation_name)
      [ ("operation", XStr operation_name);
        ("elapsed_ms", XInt finish_ms);
        ("elapsed_seconds", XFloat finish_seconds) ] ].

(** The variables the step leaves behind, and what it logged. *)
Record ExclusionStep : Type := mkExclusionStep {
  html_content : string;
  exclusion_result : option ExclusionResult;
  exclusion_timing_ms : option Z;
  step_log : list LogRecord
}.

(** Step 1.5 of [capture_html_to_obsidian]. *)
Definition exclusion_step (content : string) (exclusion_selectors : list PyObj)
  : ExclusionStep :=
  if nonempty exclusion_selectors then
    let logger := get_logger (Some module_name) in
    let entered := measure_time_enter "exclusion" logger in
    let soup := parse content in
    match apply_exclusions select soup exclusion_selectors with
    | (_, inr result) =>
        let html_content := render (result_soup result) in
        let left := measure_time_exit "exclusion" logger in
        mkExclusionStep html_content (Some result) (Some read_ms)
          (entered ++ left ++ log_exclusion_warnings result None)
    | (_, inl (TooManySelectorError msg)) =>
        let left := measure_time_exit "exclusion" logger in
        mkExclusionStep content None None
          (entered ++ left
             ++ log_exclusion_errors (TooManySelectorError msg)
                  exclusion_selectors None)
    | (_, inl e) =>
        let left := measure_time_exit "exclusion" logger in
        mkExclusionStep content None None
          (entered ++ left ++ log_exclusion_errors e exclusion_selectors None)
    end
  else mkExclusionStep content None None [].


Definition elements_excluded (step : ExclusionStep) : Z :=
  match exclusion_result step with
  | Some result => total_elements_removed (summary result)
  | None => 0%Z
  end.

End Diagnostics.

(** ** A small CSS engine

    An instance of the engine, used to run the functions above on concrete
    documents.  It knows a type selector ([footer]), a class selector
    ([.ad]), an id selector ([#lead]) and the attribute selector of the
    third landmark.  Any other string is a syntax error, and so is anything
    that is not a string.  The id selector is strict: it raises when the
    document holds the id more than once, an error that depends on the
    document and cannot show on the scratch tree of the validator. *)

Module MiniCss.

Definition is_ident_char (c : ascii) : bool :=
  (isword c || Ascii.eqb c "-")%bool.

Fixpoint is_ident (s : string) : bool :=
  match s with
  | EmptyString => true
  | String c r => (is_ident_char c && is_ident r)%bool
  end.

Definition is_name (s : string) : bool :=
  (negb (String.eqb s EmptyString) && is_ident s)%bool.

Definition has_attr (k v : string) (t : Tag) : bool :=
  existsb (fun kv => (String.eqb (fst kv) k && String.eqb (snd kv) v)%bool)
          (attrs t).

(** The compiled form of a selector. *)
Inductive compiled : Type :=
| ByTest (test : Tag -> bool)
| ById (id : string).

Definition compile (selector : string) : option compiled :=
  match selector with
  | String "." cls =>
      if is_name cls then Some (ByTest (has_attr "class" cls)) else None
  | String "#" id =>
      if is_name id then Some (ById id) else None
  | _ =>
      if is_name selector
      then Some (ByTest (fun t => String.eqb (name t) selector))
      else if String.eqb selector role_main
      then Some (ByTest (has_attr "role" "main"))
      else None
  end.

Definition select (soup : BeautifulSoup) (selector : PyObj) : Selected :=
  match selector with
  | PyStr s =>
      match compile s with
      | Some (ByTest test) => Matches (List.filter test (descendants soup))
      | Some (ById id) =>
          let found := List.filter (has_attr "id" id) (descendants soup) in
          if Nat.ltb 1 (List.length found)
          then Raises ("Ambiguous id: " +:+ id)
          else Matches found
      | None => Raises ("Malformed selector: " +:+ s)
      end
  | _ => Raises "Expected a selector string"
  end.

End MiniCss.

(** ** Sample documents *)

Module Sample.

Definition el (u : nat) (n : string) (cs : list PageElement) : PageElement :=
  ETag (mkTag u n [] cs).

(** [<html><body><header>Site</header><article><p>Text</p></article>
     <footer><small>Foot</small></footer></body></html>], 7 tags. *)
Definition page : BeautifulSoup :=
  mkTag 0 "[document]" []
    [ el 1 "html"
        [ el 2 "body"
            [ el 3 "header" [EString "Site"];
              el 4 "article" [el 5 "p" [EString "Text"]];
              el 6 "footer" [el 7 "small" [EString "Foot"]] ] ] ].

(** The same page without its footer. *)
Definition page_without_footer : BeautifulSoup :=
  mkTag 0 "[document]" []
    [ el 1 "html"
        [ el 2 "body"
            [ el 3 "header" [EString "Site"];
              el 4 "article" [el 5 "p" [EString "Text"]] ] ] ].

(** A page whose article holds whitespace and a comment only. *)
Definition hollow_article : Tag :=
  mkTag 4 "article" [] [EString "  "; EComment "note"].

Definition hollow_page : BeautifulSoup :=
  mkTag 0 "[document]" []
    [ el 1 "html"
        [ el 2 "body"
            [ el 3 "header" [EString "Site"];
              ETag hollow_article;
              el 6 "footer" [el 7 "small" [EString "Foot"]] ] ] ].


(** A page of 12 tags, 9 of them advertisements. *)
Definition ad (u : nat) : PageElement :=
  ETag (mkTag u "div" [("class", "advertisement")] []).

Definition crowded_page : BeautifulSoup :=
  mkTag 0 "[document]" []
    [ el 1 "html"
        [ el 2 "body"
            (el 3 "main" [EString "Text"]
             :: map ad [4; 5; 6; 7; 8; 9; 10; 11; 12]%nat) ] ].

(** [n] copies of the selector [".footer"]. *)
Definition many (n : nat) : list PyObj := repeat (PyStr ".footer") n.

(** [<article><template role="main">hello</template></article>]: the
    parser gives the text inside a template the class [TemplateString]. *)
Definition template_tag : Tag :=
  mkTag 2 "template" [("role", "main")] [ESpecial TemplateString "hello"].

Definition template_article : Tag := mkTag 1 "article" [] [ETag template_tag].

Definition template_page : BeautifulSoup :=
  mkTag 0 "[document]" [] [ETag template_article].

(** An article that holds wrappers without content. *)
Definition wrapper : Tag :=
  mkTag 2 "div" [] [ETag (mkTag 3 "span" [] []); EString " "].

Definition wrapped_article : Tag :=
  mkTag 1 "article" [] [ETag wrapper; EComment "note"].

Definition valid_of (s : string) : ExclusionSelector :=
  mkExclusionSelector (PyStr s) None.

End Sample.

(** ** Stand-ins for the runtime, to run the orchestrator's step *)

Module Demo.

(** A parser that knows one document, a serialiser that lists the names of
    the tags, a formatter and a class name. *)
Definition parse (html : string) : BeautifulSoup := Sample.page.

Definition render (soup : BeautifulSoup) : string :=
  String.concat " " (map name (descendants soup)).

Definition format_percent (x : Q) : string := "n%".

Definition type_name (error : Exception) : string := "Exception".

(** An engine that knows type selectors only, as a hand-written subset
    matcher would: every other selector is unsupported. *)
Definition names_only_select (soup : BeautifulSoup) (selector : PyObj)
  : Selected :=
  match selector with
  | PyStr s =>
      if MiniCss.is_name s
      then Matches (List.filter (fun t => String.eqb (name t) s)
                      (descendants soup))
      else Raises ("Unsupported selector: " +:+ s)
  | _ => Raises "Expected a selector string"
  end.

Definition step (selectors : list PyObj) : ExclusionStep :=
  exclusion_step format_percent type_name parse render MiniCss.select
    "obsidian_capture.capture" (1 # 100) 10 11 "<html>" selectors.

End Demo.

(** ** Notions used to state the properties *)

(** The identities of the tags of a document, in document order. *)
Definition uids (t : Tag) : list nat := map uid (descendants t).

(** A string made of whitespace only. *)
Fixpoint blank (s : string) : bool :=
  match s with
  | EmptyString => true
  | String c r => (isspace c && blank r)%bool
  end.

(** Meaningful content in the specification's words: the node contains an
    image, or a hyperlink, or text that is not whitespace, or one of the
    rich-content tags. *)
Definition contains_tag (names : list string) (element : Tag) : Prop :=
  exists d, d ∈ descendants element /\ name d ∈ names.

Definition meaningful (element : Tag) : Prop :=
  contains_tag ["img"] element
  \/ contains_tag ["a"] element
  \/ (exists s, s ∈ all_strings element /\ blank s = false)
  \/ contains_tag ["video"; "audio"; "iframe"; "form"; "table"; "canvas"; "svg"]
       element.

(** The invariant of a [SelectorResult]. *)
Definition outcome_ok (r : SelectorResult) : Prop :=
  success r = match error_message r with None => true | Some _ => false end
  /\ (success r = false -> elements_removed r = 0%Z).

Definition protected_reason : string :=
  "Protected selector (html/body cannot be excluded)".

Section Verdicts.

Variable select : BeautifulSoup -> PyObj -> Selected.

(** Whether the validation loop puts a selector on the [valid] list, and
    the entry it makes for it on either list. *)
Definition accepted (selector : PyObj) : bool :=
  if (negb (truthy selector) || negb (isinstance_str selector))%bool then false
  else if is_protected_selector selector then false
  else match select scratch_soup selector with
       | Matches _ => true
       | Raises _ => false
       end.

Definition verdict (selector : PyObj) : ExclusionSelector :=
  if (negb (truthy selector) || negb (isinstance_str selector))%bool then
    mkExclusionSelector (py_or selector (PyStr EmptyString))
      (Some "Empty or invalid selector")
  else if is_protected_selector selector then
    mkExclusionSelector selector (Some protected_reason)
  else match select scratch_soup selector with
       | Matches _ => mkExclusionSelector selector None
       | Raises e =>
           mkExclusionSelector selector
             (Some ("Invalid CSS selector syntax: " +:+ e))
       end.

(** The two lists the validation loop builds. *)
Definition valid_part (selectors : list PyObj) : list ExclusionSelector :=
  map verdict (filter (fun s => accepted s = true) selectors).

Definition invalid_part (selectors : list PyObj) : list ExclusionSelector :=
  map verdict (filter (fun s => accepted s = false) selectors).

(** The outcome of one turn of the first loop of [apply_exclusions] and
    the tree it leaves. *)
Definition outcome (soup : BeautifulSoup) (es : ExclusionSelector)
  : BeautifulSoup * SelectorResult :=
  match select soup (es_selector es) with
  | Matches l =>
      (decompose_all l soup,
       mkSelectorResult (es_selector es) true (len l) None)
  | Raises e =>
      (soup,
       mkSelectorResult (es_selector es) false 0
         (Some ("Failed to apply selector: " +:+ e)))
  end.

(** The outcomes of the whole loop, and the tree at its end. *)
Fixpoint outcomes (soup : BeautifulSoup) (l : list ExclusionSelector)
  : BeautifulSoup * list SelectorResult :=
  match l with
  | [] => (soup, [])
  | es :: rest =>
      let '(soup', r) := outcome soup es in
      let '(soup'', rs) := outcomes soup' rest in
      (soup'', r :: rs)
  end.

(** The outcome recorded for a selector the validator rejected. *)
Definition rejection (es : ExclusionSelector) : SelectorResult :=
  mkSelectorResult (es_selector es) false 0 (es_reason es).

(** The tree and the outcome list at the end of both loops. *)
Definition final_soup (soup : BeautifulSoup) (selectors : list PyObj)
  : BeautifulSoup :=
  fst (outcomes soup (valid_part selectors)).

Definition all_outcomes (soup : BeautifulSoup) (selectors : list PyObj)
  : list SelectorResult :=
  snd (outcomes soup (valid_part selectors))
    ++ map rejection (invalid_part selectors).

End Verdicts.

(** The tags below a list of children, the strings [get_text] reads below
    it, and what is left of it once the object [u] is taken out: the bodies
    of [descendants], [all_strings] and [detach]. *)
Definition children_descendants (cs : list PageElement) : list Tag :=
  flat_map (fun c => match c with
                     | ETag t' => t' :: descendants t'
                     | _ => []
                     end) cs.

Definition children_strings (types : option StringContainer)
    (cs : list PageElement) : list string :=
  flat_map (fun c => match c with
                     | ETag t' => strings_of types t'
                     | other => wanted types other
                     end) cs.

Definition detach_children (u : nat) (cs : list PageElement) : list PageElement :=
  flat_map (fun c => match c with
                     | ETag t' =>
                         if Nat.eqb (uid t') u then [] else [ETag (detach u t')]
                     | other => [other]
                     end) cs.

(** The record [log_exclusion_warnings] writes for a failed outcome is
    recognised by its message. *)
Definition is_selector_failure (r : LogRecord) : bool :=
  String.eqb (message r) "Exclusion selector failed".

(** A selector the validator turns down without consulting the engine. *)
Definition rejected_outright (selector : PyObj) : bool :=
  (negb (truthy selector) || negb (isinstance_str selector)
   || is_protected_selector selector)%bool.

(** * Properties *)

(** ** Strings *)

Section StringFacts.

Lemma startswith_app (p r : string) : startswith (p +:+ r) p = true.
Proof.
  induction p as [| c p IH]; simpl; [reflexivity |].
  now rewrite Ascii.eqb_refl, IH.
Qed.

Lemma contains_here (s p : string) : startswith s p = true -> contains s p = true.
Proof. intros H. destruct s; simpl in *; now rewrite H. Qed.

Lemma contains_app_r (pre s p : string) :
  contains s p = true -> contains (pre +:+ s) p = true.
Proof.
  intros H. induction pre as [| c pre IH]; simpl; [exact H |].
  rewrite IH. apply orb_true_r.
Qed.

(** A string contains each of the pieces it is assembled from. *)
Lemma contains_infix (pre mid post : string) :
  contains (pre +:+ mid +:+ post) mid = true.
Proof. apply contains_app_r, contains_here, startswith_app. Qed.

Lemma lstrip_blank (s : string) : blank (lstrip s) = blank s.
Proof.
  induction s as [| c s IH]; simpl; [reflexivity |].
  destruct (isspace c) eqn:E; simpl; [exact IH | now rewrite E].
Qed.

Lemma rstrip_empty (s : string) : rstrip s = EmptyString <-> blank s = true.
Proof.
  induction s as [| c s IH]; simpl; [tauto |].
  destruct (rstrip s) eqn:R.
  - destruct (isspace c); simpl.
    + rewrite <- IH. tauto.
    + split; discriminate.
  - split; [discriminate |].
    intros H. apply andb_true_iff in H as [_ H].
    apply IH in H. discriminate.
Qed.

(** [strip] leaves nothing exactly of the strings made of whitespace. *)
Lemma strip_empty (s : string) : strip s = EmptyString <-> blank s = true.
Proof. unfold strip. now rewrite rstrip_empty, lstrip_blank. Qed.

Lemma concat_empty (l : list string) :
  String.concat EmptyString l = EmptyString <-> Forall (fun s => s = EmptyString) l.
Proof.
  induction l as [| a l IH]; simpl.
  - split; [constructor | reflexivity].
  - destruct l as [| b l].
    + split; [intros ->; repeat constructor | now inversion 1].
    + simpl in IH |- *. split.
      * intros H. destruct a; [| discriminate].
        simpl in H. constructor; [reflexivity | now apply IH].
      * inversion 1 as [| ? ? -> Hl]. simpl. now apply IH.
Qed.

(** [get_text(strip=True)] is empty exactly when every string below the
    tag is whitespace. *)
Lemma get_text_strip_empty (t : Tag) :
  get_text_strip t = EmptyString <->
  forall s, s ∈ all_strings t -> blank s = true.
Proof.
  unfold get_text_strip. rewrite concat_empty, Forall_forall. split.
  - intros H s Hs. apply strip_empty.
    destruct (decide (strip s = EmptyString)) as [E | E]; [exact E |].
    apply H, list_elem_of_filter. split; [exact E |].
    apply list_elem_of_fmap. eauto.
  - intros H x Hx. apply list_elem_of_filter in Hx as [Hne Hx].
    apply list_elem_of_fmap in Hx as (s & -> & Hs).
    exfalso. apply Hne, strip_empty, H, Hs.
Qed.

End StringFacts.

(** ** The classifier's patterns and the ratio *)

Section ClassifierFacts.

Lemma match_literals (w : string) (p : Re.pattern) (prev : option ascii)
    (t : string) :
  Re.match_here (Re.literals w ++ p) prev t = true
  <-> exists rest, t = w +:+ rest
                   /\ Re.match_here p (Re.before_end prev w) rest = true.
Proof.
  revert prev t. induction w as [| c w IH]; intros prev t; simpl.
  - split; [eauto | now intros (rest & -> & H)].
  - destruct t as [| d t]; [split; [discriminate | now intros (? & ? & _)] |].
    destruct (Ascii.eqb_spec c d) as [<- | Hne].
    + rewrite IH. split; intros (rest & E & H); exists rest.
      * split; [subst t; reflexivity | exact H].
      * split; [| exact H].
        change (String c t = String c (w +:+ rest)) in E. congruence.
    + split; [discriminate | intros (rest & E & _)].
      change (String d t = String c (w +:+ rest)) in E. congruence.
Qed.

(** [re.match(r"^word\b", t)] succeeds exactly when [t] starts with the
    word and a word boundary follows it. *)
Lemma re_match_anchored_word (w t : string) :
  Re.re_match (Re.anchored_word w) t = true
  <-> exists rest, t = w +:+ rest
        /\ xorb (Re.isword_at (Re.before_end None w))
                (Re.isword_at (Re.peek rest)) = true.
Proof.
  unfold Re.re_match, Re.anchored_word. cbn [Re.match_here].
  rewrite match_literals.
  split; intros (rest & E & H); exists rest; (split; [exact E |]);
    simpl in *; destruct (xorb _ _); congruence.
Qed.

Lemma true_div_bounds (a b : Z) :
  (0 <= a <= b)%Z -> b <> 0%Z ->
  (0 <= true_div a b)%Q /\ (true_div a b <= 1)%Q.
Proof.
  intros [Ha Hab] Hb. unfold true_div.
  assert (Hpos : (0 < inject_Z b)%Q).
  { change 0%Q with (inject_Z 0). rewrite <- Zlt_Qlt. lia. }
  split.
  - apply Qle_shift_div_l; [exact Hpos |].
    rewrite Qmult_0_l. change 0%Q with (inject_Z 0). rewrite <- Zle_Qle. lia.
  - apply Qle_shift_div_r; [exact Hpos |].
    rewrite Qmult_1_l, <- Zle_Qle. lia.
Qed.

End ClassifierFacts.

(** ** The tree *)

Section TreeFacts.

Lemma uid_detach u t : uid (detach u t) = uid t.
Proof. destruct t; reflexivity. Qed.

(** Taking the object [u] out removes its uid from the census and adds
    nothing to it. *)
Lemma uids_detach u t :
  sublist (uids (detach u t)) (filter (fun x => x ≠ u) (uids t)).
Proof.
  unfold uids.
  induction t using Tag_rect' with
    (Q := fun cs =>
       sublist
         (map uid
            (flat_map (fun c => match c with
                                | ETag t' => t' :: descendants t'
                                | _ => []
                                end)
               (flat_map (fun c => match c with
                                   | ETag t' =>
                                       if Nat.eqb (uid t') u then []
                                       else [ETag (detach u t')]
                                   | other => [other]
                                   end) cs)))
         (filter (fun x => x ≠ u)
            (map uid
               (flat_map (fun c => match c with
                                   | ETag t' => t' :: descendants t'
                                   | _ => []
                                   end) cs)))).
  - simpl. constructor.
  - simpl. destruct (Nat.eqb_spec (uid t) u) as [E | E].
    + simpl. rewrite map_app, filter_cons_False, filter_app by (intros H; apply H; exact E).
      apply sublist_inserts_l. exact IHt0.
    + simpl. rewrite !map_app, filter_cons_True, filter_app by exact E.
      rewrite uid_detach. apply sublist_skip.
      apply sublist_app; assumption.
  - simpl. exact IHt.
  - simpl. exact IHt.
  - simpl. exact IHt.
  - simpl. exact IHt.
Qed.

Lemma sublist_filter_mono {A} (P : A -> Prop) `{!forall x, Decision (P x)}
    (l k : list A) :
  sublist l k -> sublist (filter P l) (filter P k).
Proof.
  induction 1 as [| x l k _ IH | x l k _ IH]; [constructor | |];
    rewrite ?filter_cons; destruct (decide (P x));
    auto using sublist_skip, sublist_cons.
Qed.

Lemma filter_all {A} (P : A -> Prop) `{!forall x, Decision (P x)} (l : list A) :
  Forall P l -> filter P l = l.
Proof.
  induction 1 as [| x l Hx _ IH]; [reflexivity |].
  rewrite filter_cons_True by exact Hx. now rewrite IH.
Qed.

Lemma uids_decompose_all (l : list Tag) (t : Tag) :
  sublist (uids (decompose_all l t))
          (filter (fun x => x ∉ map uid l) (uids t)).
Proof.
  revert t. induction l as [| e l IH]; intros t; simpl.
  - rewrite filter_all; [reflexivity |].
    apply Forall_forall. intros x _ H. inversion H.
  - etransitivity; [apply IH |].
    etransitivity;
      [apply sublist_filter_mono, (uids_detach (uid e) t) |].
    rewrite list_filter_filter.
    erewrite list_filter_iff; [reflexivity |].
    intros x. simpl. rewrite not_elem_of_cons. tauto.
Qed.

(** A list of matches drawn from the tree without repetition takes at
    least its own length off the census. *)
Lemma census_after_decompose (l : list Tag) (t : Tag) :
  sublist l (descendants t) ->
  (len (find_all (decompose_all l t)) + len l <= len (find_all t))%Z.
Proof.
  intros Hsub. unfold len, find_all.
  pose proof (sublist_length _ _ (uids_decompose_all l t)) as Hafter.
  assert (Hin : sublist (map uid l)
                  (filter (fun x => x ∈ map uid l) (uids t))).
  { rewrite <- (filter_all (fun x => x ∈ map uid l) (map uid l)) at 1.
    - apply sublist_filter_mono. unfold uids.
      now apply (fmap_sublist uid).
    - apply Forall_forall. auto. }
  apply sublist_length in Hin.
  pose proof (filter_app_complement (fun x => x ∈ map uid l) (uids t)) as Hperm.
  apply Permutation_length in Hperm.
  rewrite length_app in Hperm.
  unfold uids in *. rewrite !length_map in *.
  lia.
Qed.

Lemma nonempty_true {A} (l : list A) : nonempty l = true <-> exists x, x ∈ l.
Proof.
  destruct l as [| a l]; simpl; split; try discriminate.
  - intros [x H]. inversion H.
  - intros _. exists a. left.
  - reflexivity.
Qed.

Lemma find_all_named_nonempty (names : list string) (e : Tag) :
  nonempty (find_all_named names e) = true <-> contains_tag names e.
Proof.
  rewrite nonempty_true. unfold find_all_named, contains_tag.
  split; intros [d H]; exists d;
    apply list_elem_of_filter in H || apply list_elem_of_filter; tauto.
Qed.

Lemma text_check (e : Tag) :
  (negb (String.eqb (get_text_strip e) EmptyString)
   && Z.ltb 0 (Z.of_nat (String.length (get_text_strip e))))%bool = true
  <-> exists s, s ∈ all_strings e /\ blank s = false.
Proof.
  destruct (String.eqb_spec (get_text_strip e) EmptyString) as [E | E]; simpl.
  - split; [discriminate |]. intros (s & Hs & Hb).
    rewrite (proj1 (get_text_strip_empty e) E s Hs) in Hb. discriminate.
  - split.
    + intros _.
      destruct (decide (Exists (fun s => blank s = false) (all_strings e)))
        as [H | H].
      * apply Exists_exists in H. exact H.
      * exfalso. apply E, get_text_strip_empty. intros s Hs.
        destruct (blank s) eqn:B; [reflexivity |].
        exfalso. apply H, Exists_exists. eauto.
    + intros _. destruct (get_text_strip e); [congruence | reflexivity].
Qed.

(** [has_meaningful_content] decides the specification's notion. *)
Lemma has_meaningful_content_iff (e : Tag) :
  has_meaningful_content e = true <-> meaningful e.
Proof.
  unfold has_meaningful_content, meaningful.
  rewrite <- !find_all_named_nonempty, <- text_check.
  destruct (nonempty (find_all_named ["img"] e)); [tauto |].
  destruct (nonempty (find_all_named ["a"] e)); [tauto |].
  destruct (negb _ && _)%bool; [tauto |].
  destruct (nonempty _); intuition congruence.
Qed.

End TreeFacts.

(** ** The validation loop *)

Section ValidationFacts.

Variable select : BeautifulSoup -> PyObj -> Selected.

Lemma validate_step_verdict (v i : list ExclusionSelector) (s : PyObj) :
  validate_step select (v, i) s
  = if accepted select s then (v ++ [verdict select s], i) else (v, i ++ [verdict select s]).
Proof.
  unfold validate_step, accepted, verdict.
  destruct (negb (truthy s) || negb (isinstance_str s))%bool; [reflexivity |].
  destruct (is_protected_selector s); [reflexivity |].
  destruct (select scratch_soup s); reflexivity.
Qed.

Lemma validate_fold (selectors : list PyObj) (v i : list ExclusionSelector) :
  fold_left (validate_step select) selectors (v, i)
  = (v ++ valid_part select selectors, i ++ invalid_part select selectors).
Proof.
  unfold valid_part, invalid_part.
  revert v i. induction selectors as [| s l IH]; intros v i.
  - simpl. now rewrite !app_nil_r.
  - cbn [fold_left]. rewrite validate_step_verdict, !filter_cons.
    destruct (accepted select s) eqn:E; rewrite IH; simpl;
      now rewrite <- app_assoc.
Qed.

Lemma validate_under_cap (selectors : list PyObj) :
  (len selectors <= 100)%Z ->
  validate_selectors select selectors 100
  = inr (mkValidationResult (valid_part select selectors) (invalid_part select selectors)
           (len selectors) false).
Proof.
  intros H. unfold validate_selectors.
  destruct (Z.ltb_spec 100 (len selectors)); [lia |].
  now rewrite validate_fold.
Qed.

Lemma validate_over_cap (selectors : list PyObj) :
  (100 < len selectors)%Z ->
  validate_selectors select selectors 100
  = inl (TooManySelectorError (too_many_message (len selectors) 100)).
Proof.
  intros H. unfold validate_selectors.
  destruct (Z.ltb_spec 100 (len selectors)); [reflexivity | lia].
Qed.

Lemma validate_returns (selectors : list PyObj) (v : ValidationResult) :
  validate_selectors select selectors 100 = inr v ->
  (len selectors <= 100)%Z
  /\ valid v = valid_part select selectors /\ invalid v = invalid_part select selectors.
Proof.
  intros H. destruct (Z.le_gt_cases (len selectors) 100) as [Hle | Hgt].
  - rewrite validate_under_cap in H by exact Hle.
    injection H as <-. auto.
  - rewrite validate_over_cap in H by lia. discriminate.
Qed.

Lemma verdict_selector (s : PyObj) :
  es_selector (verdict select s) = py_or s (PyStr EmptyString).
Proof.
  unfold verdict, py_or.
  destruct (truthy s) eqn:T; simpl; [| reflexivity].
  destruct (negb (isinstance_str s)); [reflexivity |].
  destruct (is_protected_selector s); [reflexivity |].
  destruct (select scratch_soup s); reflexivity.
Qed.

Lemma verdict_rejected (s : PyObj) :
  accepted select s = false -> exists reason, es_reason (verdict select s) = Some reason.
Proof.
  unfold accepted, verdict.
  destruct (negb (truthy s) || negb (isinstance_str s))%bool; [eauto |].
  destruct (is_protected_selector s); [eauto |].
  destruct (select scratch_soup s); [discriminate | eauto].
Qed.

Lemma verdict_protected (s : PyObj) :
  is_protected_selector s = true ->
  accepted select s = false /\ verdict select s = mkExclusionSelector s (Some protected_reason).
Proof.
  intros H. unfold accepted, verdict. rewrite H.
  unfold is_protected_selector in H.
  destruct (negb (truthy s) || negb (isinstance_str s))%bool;
    [discriminate | auto].
Qed.

Lemma parts_length (selectors : list PyObj) :
  (List.length (valid_part select selectors) + List.length (invalid_part select selectors)
   = List.length selectors)%nat.
Proof.
  unfold valid_part, invalid_part. rewrite !length_map.
  pose proof (filter_app_complement (fun s => accepted select s = true) selectors) as H.
  apply Permutation_length in H. rewrite length_app in H.
  rewrite (list_filter_iff (fun s => accepted select s = false)
             (fun s => ~ accepted select s = true)); [exact H |].
  intros s. destruct (accepted select s); split; congruence.
Qed.

Lemma parts_selectors (selectors : list PyObj) :
  map es_selector (valid_part select selectors ++ invalid_part select selectors)
  ≡ₚ map (fun s => py_or s (PyStr EmptyString)) selectors.
Proof.
  unfold valid_part, invalid_part.
  assert (Hsel : forall l, map es_selector (map (verdict select) l)
                           = map (fun s => py_or s (PyStr EmptyString)) l).
  { intros l. rewrite map_map. apply map_ext, verdict_selector. }
  rewrite map_app, !Hsel, <- map_app.
  apply Permutation_map.
  rewrite (list_filter_iff (fun s => accepted select s = false)
             (fun s => ~ accepted select s = true)).
  - apply filter_app_complement.
  - intros s. destruct (accepted select s); split; congruence.
Qed.

End ValidationFacts.

(** ** The two loops of the applier *)

Section ApplyFacts.

Variable select : BeautifulSoup -> PyObj -> Selected.

Lemma apply_step_outcome (soup : BeautifulSoup) (rs : list SelectorResult)
    (n : Z) (es : ExclusionSelector) :
  apply_step select (soup, rs, n) es
  = (fst (outcome select soup es), rs ++ [snd (outcome select soup es)],
     (n + elements_removed (snd (outcome select soup es)))%Z).
Proof.
  unfold apply_step, outcome.
  destruct (select soup (es_selector es)); simpl; [reflexivity |].
  now rewrite Z.add_0_r.
Qed.

Lemma apply_fold (l : list ExclusionSelector) (soup : BeautifulSoup)
    (rs : list SelectorResult) (n : Z) :
  fold_left (apply_step select) l (soup, rs, n)
  = (fst (outcomes select soup l), rs ++ snd (outcomes select soup l),
     (n + sum_Z (map elements_removed (snd (outcomes select soup l))))%Z).
Proof.
  revert soup rs n. induction l as [| es l IH]; intros soup rs n.
  - simpl. now rewrite app_nil_r, Z.add_0_r.
  - cbn [fold_left]. rewrite apply_step_outcome, IH. simpl.
    destruct (outcome select soup es) as [soup' r]. simpl.
    destruct (outcomes select soup' l) as [soup'' rs']. simpl.
    now rewrite <- app_assoc, Z.add_assoc.
Qed.

Lemma reject_fold (l : list ExclusionSelector) (rs : list SelectorResult) :
  fold_left reject_step l rs = rs ++ map rejection l.
Proof.
  revert rs. induction l as [| es l IH]; intros rs; simpl.
  - now rewrite app_nil_r.
  - rewrite IH. unfold reject_step, rejection. now rewrite <- app_assoc.
Qed.

Lemma outcomes_cons (soup : BeautifulSoup) (es : ExclusionSelector)
    (l : list ExclusionSelector) :
  outcomes select soup (es :: l)
  = (fst (outcomes select (fst (outcome select soup es)) l),
     snd (outcome select soup es) :: snd (outcomes select (fst (outcome select soup es)) l)).
Proof.
  simpl. destruct (outcome select soup es) as [soup' r]. simpl.
  now destruct (outcomes select soup' l).
Qed.

Lemma outcomes_length (soup : BeautifulSoup) (l : list ExclusionSelector) :
  List.length (snd (outcomes select soup l)) = List.length l.
Proof.
  revert soup. induction l as [| es l IH]; intros soup; [reflexivity |].
  rewrite outcomes_cons. simpl. now rewrite IH.
Qed.

Lemma outcomes_app (soup : BeautifulSoup) (a b : list ExclusionSelector) :
  outcomes select soup (a ++ b)
  = (fst (outcomes select (fst (outcomes select soup a)) b),
     snd (outcomes select soup a) ++ snd (outcomes select (fst (outcomes select soup a)) b)).
Proof.
  revert soup. induction a as [| es a IH]; intros soup.
  - simpl. now destruct (outcomes select soup b).
  - rewrite <- app_comm_cons, !outcomes_cons, IH. reflexivity.
Qed.

Lemma outcome_selector (soup : BeautifulSoup) (es : ExclusionSelector) :
  selector (snd (outcome select soup es)) = es_selector es.
Proof.
  unfold outcome. now destruct (select soup (es_selector es)).
Qed.

Lemma outcomes_selectors (soup : BeautifulSoup) (l : list ExclusionSelector) :
  map selector (snd (outcomes select soup l)) = map es_selector l.
Proof.
  revert soup. induction l as [| es l IH]; intros soup; [reflexivity |].
  rewrite outcomes_cons. simpl. now rewrite outcome_selector, IH.
Qed.

Lemma outcome_is_ok (soup : BeautifulSoup) (es : ExclusionSelector) :
  outcome_ok (snd (outcome select soup es)).
Proof.
  unfold outcome, outcome_ok.
  destruct (select soup (es_selector es)); simpl; split; congruence.
Qed.

Lemma outcomes_ok (soup : BeautifulSoup) (l : list ExclusionSelector) :
  Forall outcome_ok (snd (outcomes select soup l)).
Proof.
  revert soup. induction l as [| es l IH]; intros soup; [constructor |].
  rewrite outcomes_cons. constructor; [apply outcome_is_ok | apply IH].
Qed.

Lemma rejection_ok (es : ExclusionSelector) :
  (exists reason, es_reason es = Some reason) -> outcome_ok (rejection es).
Proof. intros [reason H]. unfold outcome_ok, rejection. simpl. now rewrite H. Qed.

Lemma sum_Z_app (a b : list Z) : sum_Z (a ++ b) = (sum_Z a + sum_Z b)%Z.
Proof. induction a as [| x a IH]; simpl; [reflexivity | rewrite IH; lia]. Qed.

Lemma sum_ones {A} (l : list A) : sum_Z (map (fun _ => 1%Z) l) = len l.
Proof. unfold len. induction l as [| x l IH]; simpl in *; [reflexivity | lia]. Qed.

Lemma sum_rejections (l : list ExclusionSelector) :
  sum_Z (map elements_removed (map rejection l)) = 0%Z.
Proof. induction l as [| es l IH]; simpl; [reflexivity | exact IH]. Qed.

Section Census.

(** The engine returns matches drawn from the tree it is asked about,
    in document order, each at most once. *)
Hypothesis select_sound :
  forall soup selector l,
    select soup selector = Matches l -> sublist l (descendants soup).

Lemma outcome_census (soup : BeautifulSoup) (es : ExclusionSelector) :
  (0 <= elements_removed (snd (outcome select soup es)))%Z
  /\ (len (find_all (fst (outcome select soup es)))
      + elements_removed (snd (outcome select soup es))
      <= len (find_all soup))%Z.
Proof.
  unfold outcome.
  destruct (select soup (es_selector es)) as [l | e] eqn:E; simpl.
  - split; [unfold len; lia |].
    apply census_after_decompose, (select_sound _ _ _ E).
  - lia.
Qed.

(** What the loop reports as removed has left the tree. *)
Lemma outcomes_census (soup : BeautifulSoup) (l : list ExclusionSelector) :
  (0 <= sum_Z (map elements_removed (snd (outcomes select soup l))))%Z
  /\ (len (find_all (fst (outcomes select soup l)))
      + sum_Z (map elements_removed (snd (outcomes select soup l)))
      <= len (find_all soup))%Z.
Proof.
  revert soup. induction l as [| es l IH]; intros soup.
  - simpl. lia.
  - rewrite outcomes_cons. simpl.
    pose proof (outcome_census soup es) as [H0 H1].
    pose proof (IH (fst (outcome select soup es))) as [H2 H3].
    lia.
Qed.

End Census.

End ApplyFacts.

(** ** Detection, aggregation and the applier as a whole *)

Section ApplierFacts.

Variable select : BeautifulSoup -> PyObj -> Selected.

Lemma collect_primary_landmarks (soup : BeautifulSoup) (l1 l2 l3 : list Tag) :
  select soup (PyStr "article") = Matches l1 ->
  select soup (PyStr "main") = Matches l2 ->
  select soup (PyStr role_main) = Matches l3 ->
  collect_primary select soup PRIMARY_CONTENT_SELECTORS [] = inr (l1 ++ l2 ++ l3).
Proof.
  intros H1 H2 H3. unfold PRIMARY_CONTENT_SELECTORS. simpl.
  rewrite H1, H2, H3. unfold ret. now rewrite <- app_assoc.
Qed.

Lemma detect_landmarks (soup : BeautifulSoup) (l1 l2 l3 : list Tag) :
  select soup (PyStr "article") = Matches l1 ->
  select soup (PyStr "main") = Matches l2 ->
  select soup (PyStr role_main) = Matches l3 ->
  detect_empty_primary_content select soup
  = inr (negb (existsb has_meaningful_content (l1 ++ l2 ++ l3))).
Proof.
  intros H1 H2 H3. unfold detect_empty_primary_content.
  rewrite (collect_primary_landmarks soup l1 l2 l3 H1 H2 H3). simpl.
  destruct (l1 ++ l2 ++ l3) as [| e l]; [reflexivity |]. simpl.
  now destruct (has_meaningful_content e || existsb has_meaningful_content l)%bool.
Qed.

Lemma apply_exclusions_over_cap (soup : BeautifulSoup) (selectors : list PyObj) :
  (100 < len selectors)%Z ->
  apply_exclusions select soup selectors
  = (soup, inl (TooManySelectorError (too_many_message (len selectors) 100))).
Proof.
  intros H. unfold apply_exclusions.
  now rewrite validate_over_cap by exact H.
Qed.

Lemma apply_exclusions_loops (soup : BeautifulSoup) (selectors : list PyObj)
    (validation : ValidationResult) :
  validate_selectors select selectors 100 = inr validation ->
  let st := fold_left (apply_step select) (valid validation) (soup, [], 0%Z) in
  let rs := fold_left reject_step (invalid validation) st.1.2 in
  apply_exclusions select soup selectors
  = (st.1.1,
     let! summary :=
       aggregate_exclusion_summary select rs (len (find_all soup)) st.1.1 in
     ret (mkExclusionResult st.1.1 summary rs)).
Proof.
  intros H. unfold apply_exclusions. rewrite H.
  now destruct (fold_left _ _ _) as [[soup' rs'] n].
Qed.

Lemma apply_exclusions_under_cap (soup : BeautifulSoup) (selectors : list PyObj) :
  (len selectors <= 100)%Z ->
  apply_exclusions select soup selectors
  = (final_soup select soup selectors,
     let! summary :=
       aggregate_exclusion_summary select (all_outcomes select soup selectors)
         (len (find_all soup)) (final_soup select soup selectors) in
     ret (mkExclusionResult (final_soup select soup selectors) summary
            (all_outcomes select soup selectors))).
Proof.
  intros H.
  rewrite (apply_exclusions_loops soup selectors _
             (validate_under_cap select selectors H)).
  cbn [valid invalid]. rewrite apply_fold. cbn [fst snd].
  now rewrite reject_fold.
Qed.

Lemma aggregate_fields (rs : list SelectorResult) (n : Z) (soup : BeautifulSoup)
    (s : ExclusionSummary) :
  aggregate_exclusion_summary select rs n soup = inr s ->
  selectors_processed s = len rs
  /\ total_elements_removed s = sum_Z (map elements_removed rs)
  /\ original_element_count s = n
  /\ successful_selectors s = len (filter (fun r => success r = true) rs)
  /\ failed_selectors s = len (filter (fun r => success r = false) rs)
  /\ detect_empty_primary_content select soup
     = inr (empty_primary_content_warning s).
Proof.
  unfold aggregate_exclusion_summary.
  destruct (detect_empty_primary_content select soup) as [e | b];
    simpl; [discriminate |].
  intros [= <-]. simpl. rewrite !sum_ones. auto 6.
Qed.

Lemma detect_raises (soup : BeautifulSoup) (e : Exception) :
  detect_empty_primary_content select soup = inl e ->
  exists text, e = EngineException text.
Proof.
  unfold detect_empty_primary_content, PRIMARY_CONTENT_SELECTORS. simpl.
  destruct (select soup (PyStr "article")); simpl; [| intros [= <-]; eauto].
  destruct (select soup (PyStr "main")); simpl; [| intros [= <-]; eauto].
  destruct (select soup (PyStr role_main)); simpl; [| intros [= <-]; eauto].
  destruct (negb _); [discriminate |].
  destruct (existsb _ _); discriminate.
Qed.

Lemma apply_exclusions_raises (soup soup' : BeautifulSoup)
    (selectors : list PyObj) (msg : string) :
  apply_exclusions select soup selectors = (soup', inl (TooManySelectorError msg)) ->
  (100 < len selectors)%Z /\ soup' = soup.
Proof.
  intros H. destruct (Z.le_gt_cases (len selectors) 100) as [Hle | Hgt].
  - exfalso. rewrite apply_exclusions_under_cap in H by exact Hle.
    unfold aggregate_exclusion_summary in H.
    destruct (detect_empty_primary_content select _) as [e | b] eqn:D;
      simpl in H; [| discriminate].
    apply detect_raises in D as [text ->]. discriminate.
  - rewrite apply_exclusions_over_cap in H by lia.
    injection H as <- _. split; [lia | reflexivity].
Qed.

(** The outcome of the selector at a given place of the valid list, and
    the state the loop is in when it reaches it. *)
Lemma recorded_at (soup soup' : BeautifulSoup) (selectors : list PyObj)
    (validation : ValidationResult) (result : ExclusionResult)
    (before after : list ExclusionSelector) (es : ExclusionSelector)
    (t : BeautifulSoup) (rs : list SelectorResult) (n : Z) :
  validate_selectors select selectors 100 = inr validation ->
  valid validation = before ++ es :: after ->
  fold_left (apply_step select) before (soup, [], 0%Z) = (t, rs, n) ->
  apply_exclusions select soup selectors = (soup', inr result) ->
  selector_results result !! List.length before = Some (snd (outcome select t es))
  /\ soup' = (fold_left (apply_step select) after
                (apply_step select (t, rs, n) es)).1.1.
Proof.
  intros Hv Hsplit Hbefore Happly.
  rewrite (apply_exclusions_loops soup selectors validation Hv) in Happly.
  cbn zeta in Happly. rewrite Hsplit, fold_left_app, Hbefore in Happly.
  cbn [fold_left] in Happly.
  apply pair_equal_spec in Happly as [Hsoup Hres].
  split; [| symmetry; exact Hsoup].
  rewrite apply_fold in Hbefore. injection Hbefore as <- <- <-.
  rewrite apply_step_outcome, apply_fold, reject_fold in Hres.
  cbn [fst snd] in Hres.
  destruct (aggregate_exclusion_summary _ _ _ _) as [e | s];
    simpl in Hres; [discriminate |].
  injection Hres as <-. cbn [selector_results].
  rewrite <- !app_assoc. simpl.
  rewrite <- (outcomes_length select soup before).
  apply list_lookup_middle. reflexivity.
Qed.






Section Landmarks.

(** The engine accepts the three landmark selectors, which are constants
    of the module. *)
Hypothesis select_landmarks :
  forall soup s,
    s ∈ PRIMARY_CONTENT_SELECTORS -> exists l, select soup (PyStr s) = Matches l.

Lemma detect_returns (soup : BeautifulSoup) :
  exists b, detect_empty_primary_content select soup = inr b.
Proof.
  destruct (select_landmarks soup "article") as [l1 H1];
    [unfold PRIMARY_CONTENT_SELECTORS; repeat constructor |].
  destruct (select_landmarks soup "main") as [l2 H2];
    [unfold PRIMARY_CONTENT_SELECTORS; repeat constructor |].
  destruct (select_landmarks soup role_main) as [l3 H3];
    [unfold PRIMARY_CONTENT_SELECTORS; repeat constructor |].
  rewrite (detect_landmarks soup l1 l2 l3 H1 H2 H3). eauto.
Qed.

Lemma aggregate_returns (rs : list SelectorResult) (n : Z)
    (soup : BeautifulSoup) :
  exists s, aggregate_exclusion_summary select rs n soup = inr s.
Proof.
  unfold aggregate_exclusion_summary.
  destruct (detect_returns soup) as [b ->]. simpl. eauto.
Qed.

Lemma apply_exclusions_returns (soup : BeautifulSoup) (selectors : list PyObj) :
  (len selectors <= 100)%Z ->
  exists summary,
    apply_exclusions select soup selectors
    = (final_soup select soup selectors,
       inr (mkExclusionResult (final_soup select soup selectors) summary
              (all_outcomes select soup selectors))).
Proof.
  intros H. rewrite apply_exclusions_under_cap by exact H.
  destruct (aggregate_returns (all_outcomes select soup selectors)
              (len (find_all soup)) (final_soup select soup selectors))
    as [s ->].
  simpl. eauto.
Qed.

End Landmarks.

(** Whatever [apply_exclusions] returns is made of the outcomes of the two
    loops. *)
Lemma apply_exclusions_result (doc doc' : BeautifulSoup)
    (selectors : list PyObj) (result : ExclusionResult) :
  apply_exclusions select doc selectors = (doc', inr result) ->
  (len selectors <= 100)%Z
  /\ doc' = final_soup select doc selectors
  /\ soup result = doc'
  /\ selector_results result = all_outcomes select doc selectors
  /\ aggregate_exclusion_summary select (all_outcomes select doc selectors)
       (len (find_all doc)) doc' = inr (summary result).
Proof.
  intros H. destruct (Z.le_gt_cases (len selectors) 100) as [Hle | Hgt].
  - rewrite apply_exclusions_under_cap in H by exact Hle.
    destruct (aggregate_exclusion_summary _ _ _ _) as [e | s] eqn:A;
      simpl in H; [discriminate |].
    injection H as <- <-. simpl. auto.
  - rewrite apply_exclusions_over_cap in H by lia. discriminate.
Qed.

End ApplierFacts.

(** ** The small engine honours the engine's contract *)

Section MiniCssFacts.

Lemma list_filter_sublist {A} (f : A -> bool) (l : list A) :
  sublist (List.filter f l) l.
Proof.
  induction l as [| x l IH]; simpl; [constructor |].
  destruct (f x); auto using sublist_skip, sublist_cons.
Qed.

Lemma MiniCss_sound (soup : BeautifulSoup) (selector : PyObj) (l : list Tag) :
  MiniCss.select soup selector = Matches l -> sublist l (descendants soup).
Proof.
  unfold MiniCss.select. destruct selector as [s | | |]; try discriminate.
  destruct (MiniCss.compile s) as [[test | id] |]; [| | discriminate].
  - intros [= <-]. apply list_filter_sublist.
  - cbv zeta. destruct (Nat.ltb _ _); [discriminate |].
    intros [= <-]. apply list_filter_sublist.
Qed.

Lemma MiniCss_landmarks (soup : BeautifulSoup) (s : string) :
  s ∈ PRIMARY_CONTENT_SELECTORS ->
  exists l, MiniCss.select soup (PyStr s) = Matches l.
Proof.
  unfold PRIMARY_CONTENT_SELECTORS. intros H.
  repeat (apply elem_of_cons in H as [-> | H]);
    [| | | now apply elem_of_nil in H];
    unfold MiniCss.select;
    match goal with
    | |- context [MiniCss.compile ?x] =>
        destruct (MiniCss.compile x) as [[test | id] |] eqn:E;
        [eauto | vm_compute in E; discriminate
         | vm_compute in E; discriminate]
    end.
Qed.

End MiniCssFacts.

(** * The claims of the specification *)

Section Claims.

Variable select : BeautifulSoup -> PyObj -> Selected.

(** C1.  A selector list of at most 100 entries passes [validate_selectors]
    without an exception.  A longer list makes it raise
    [TooManySelectorError] with a message that contains the count and the
    limit 100; [apply_exclusions] then raises the same error and leaves
    the tree as it was, and whenever [apply_exclusions] raises that error
    the tree is unchanged and no result (hence no outcome) exists. *)
Theorem cap_enforced_before_mutation :
  (forall selectors,
      (len selectors <= 100)%Z ->
      exists validation,
        validate_selectors select selectors 100 = inr validation)
  /\ (forall selectors,
        (100 < len selectors)%Z ->
        exists msg,
          validate_selectors select selectors 100
          = inl (TooManySelectorError msg)
          /\ contains msg (str_of_int (len selectors)) = true
          /\ contains msg "100" = true
          /\ forall soup,
              apply_exclusions select soup selectors
              = (soup, inl (TooManySelectorError msg)))
  /\ (forall soup selectors soup' msg,
        apply_exclusions select soup selectors
        = (soup', inl (TooManySelectorError msg)) ->
        soup' = soup /\ (100 < len selectors)%Z).
Proof.
  split; [| split].
  - intros selectors H. rewrite validate_under_cap by exact H. eauto.
  - intros selectors H.
    exists (too_many_message (len selectors) 100).
    split; [now apply validate_over_cap |].
    split; [apply contains_infix |].
    split; [| intros soup; now apply apply_exclusions_over_cap].
    unfold too_many_message. do 3 apply contains_app_r. reflexivity.
  - intros soup selectors soup' msg H.
    apply apply_exclusions_raises in H. tauto.
Qed.


(** C5.  [high_removal_warning] is [true] exactly when [removal_ratio] is
    at least 0.4, and it is [should_warn_high_removal] of the ratio: the
    value 0.4 itself gives [true], every value below it gives [false]. *)
Theorem high_removal_warning_threshold :
  (forall s,
      high_removal_warning s = true <-> (4 # 10 <= removal_ratio s)%Q)
  /\ (forall s,
        high_removal_warning s = should_warn_high_removal (removal_ratio s))
  /\ (forall ratio,
        should_warn_high_removal ratio = true <-> (4 # 10 <= ratio)%Q)
  /\ should_warn_high_removal (4 # 10) = true
  /\ (forall ratio,
        (ratio == 4 # 10)%Q -> should_warn_high_removal ratio = true)
  /\ (forall ratio,
        (ratio < 4 # 10)%Q -> should_warn_high_removal ratio = false).
Proof.
  unfold high_removal_warning, should_warn_high_removal, warning_threshold.
  split; [intros s; apply Qle_bool_iff |].
  split; [reflexivity |].
  split; [intros ratio; apply Qle_bool_iff |].
  split; [reflexivity |].
  split.
  - intros ratio H. apply Qle_bool_iff. rewrite H. apply Qle_refl.
  - intros ratio H. apply not_true_iff_false. intros Hb.
    apply Qle_bool_iff in Hb. apply (Qlt_not_le _ _ H Hb).
Qed.

(** C7.  The classifier looks at the leading token only, after lowering
    the case and trimming: a non-empty string is protected exactly when
    what is left starts with [html] or [body] followed by a word boundary.
    The four protected examples and the unprotected [div.body] come out as
    stated, and the empty string and every value that is not a string are
    not protected. *)
Theorem is_protected_selector_leading_token :
  is_protected_selector (PyStr "html") = true
  /\ is_protected_selector (PyStr "body") = true
  /\ is_protected_selector (PyStr "html.foo") = true
  /\ is_protected_selector (PyStr "body *") = true
  /\ is_protected_selector (PyStr "div.body") = false
  /\ is_protected_selector (PyStr "  HTML.Foo ") = true
  /\ is_protected_selector (PyStr EmptyString) = false
  /\ (forall x, isinstance_str x = false -> is_protected_selector x = false)
  /\ (forall x, truthy x = false -> is_protected_selector x = false)
  /\ (forall s,
        s <> EmptyString ->
        is_protected_selector (PyStr s) = true <->
        exists w rest,
          (w = "html" \/ w = "body")
          /\ strip (lower s) = w +:+ rest
          /\ Re.isword_at (Re.peek rest) = false).
Proof.
  repeat (split; [reflexivity |]).
  split; [intros x H; unfold is_protected_selector; rewrite H;
          now rewrite orb_true_r |].
  split; [intros x H; unfold is_protected_selector; now rewrite H |].
  intros s Hs. unfold is_protected_selector, protected_patterns. simpl.
  destruct (String.eqb_spec s EmptyString) as [E | _]; [contradiction |].
  simpl. rewrite orb_false_r, orb_true_iff, !re_match_anchored_word.
  split.
  - intros [(rest & E & H) | (rest & E & H)]; simpl in H;
      [exists "html", rest | exists "body", rest];
      (split; [tauto |]); (split; [exact E |]);
      now destruct (Re.isword_at (Re.peek rest)).
  - intros (w & rest & [-> | ->] & E & H); [left | right];
      exists rest; (split; [exact E |]); simpl; now rewrite H.
Qed.

(** C10.  The word boundary after the leading token also falls before a
    hyphen, so the selectors [html-widget] and [body-content], whose
    leading token is a custom element and not [html] or [body], are
    classified as protected. *)
Theorem is_protected_selector_custom_elements :
  is_protected_selector (PyStr "html-widget") = true
  /\ is_protected_selector (PyStr "body-content") = true
  /\ isword "-" = false.
Proof. repeat split; reflexivity. Qed.

(** C6.  Every outcome [apply_exclusions] returns has
    [success == (error_message is None)] and removed nothing when it is a
    failure; the summary counts satisfy
    [successful_selectors + failed_selectors == selectors_processed]; and
    there is exactly one outcome for each input selector: the outcomes'
    selectors are the input selectors, up to their order. *)
Theorem outcome_invariants
    (soup soup' : BeautifulSoup) (selectors : list PyObj)
    (result : ExclusionResult) :
  apply_exclusions select soup selectors = (soup', inr result) ->
  Forall outcome_ok (selector_results result)
  /\ (successful_selectors (summary result)
      + failed_selectors (summary result)
      = selectors_processed (summary result))%Z
  /\ selectors_processed (summary result) = len selectors
  /\ List.length (selector_results result) = List.length selectors
  /\ map selector (selector_results result)
     ≡ₚ map (fun s => py_or s (PyStr EmptyString)) selectors.
Proof.
  intros H. apply apply_exclusions_result in H as (_ & _ & _ & Hrs & Hagg).
  apply aggregate_fields in Hagg as (Hp & _ & _ & Hs & Hf & _).
  rewrite Hp, Hs, Hf, Hrs. clear.
  assert (Hlen : List.length (all_outcomes select soup selectors)
                 = List.length selectors).
  { unfold all_outcomes.
    rewrite length_app, outcomes_length, length_map.
    apply parts_length. }
  split; [| split; [| split; [unfold len; now rewrite Hlen | split; [exact Hlen |]]]].
  - unfold all_outcomes. apply Forall_app. split; [apply outcomes_ok |].
    apply Forall_forall. intros r Hr.
    apply list_elem_of_fmap in Hr as (es & -> & Hes).
    apply rejection_ok.
    apply list_elem_of_fmap in Hes as (x & -> & Hx).
    apply list_elem_of_filter in Hx as [Hx _].
    now apply verdict_rejected.
  - set (rs := all_outcomes select soup selectors).
    pose proof (filter_app_complement (fun r => success r = true) rs) as Hperm.
    apply Permutation_length in Hperm. rewrite length_app in Hperm.
    rewrite (list_filter_iff (fun r => success r = false)
               (fun r => ~ success r = true)).
    + unfold len. lia.
    + intros r. destruct (success r); split; congruence.
  - unfold all_outcomes.
    rewrite map_app, outcomes_selectors.
    replace (map selector (map rejection (invalid_part select selectors)))
      with (map es_selector (invalid_part select selectors))
      by (rewrite map_map; reflexivity).
    rewrite <- map_app. apply parts_selectors.
Qed.

(** C8.  The protection check comes before the syntax check: a protected
    selector of the list is rejected with the reason
    [Protected selector (html/body cannot be excluded)] whatever the
    engine makes of its syntax, so also when it is malformed; no entry
    for it carries a syntax reason.  The reason mentions "protected"
    (with a capital letter) and does not mention syntax. *)
Theorem protection_checked_before_syntax
    (selectors : list PyObj) (validation : ValidationResult) (s : PyObj) :
  validate_selectors select selectors 100 = inr validation ->
  s ∈ selectors ->
  is_protected_selector s = true ->
  mkExclusionSelector s (Some protected_reason) ∈ invalid validation
  /\ (forall entry,
        entry ∈ valid validation ++ invalid validation ->
        es_selector entry = s ->
        es_reason entry = Some protected_reason)
  /\ contains (lower protected_reason) "protected" = true
  /\ contains (lower protected_reason) "syntax" = false.
Proof.
  intros Hv Hin Hp.
  apply validate_returns in Hv as (_ & -> & ->).
  destruct (verdict_protected select s Hp) as [Hacc Hverdict].
  split; [| split; [| split; reflexivity]].
  - rewrite <- Hverdict. unfold invalid_part.
    apply list_elem_of_fmap_2, list_elem_of_filter. auto.
  - intros entry Hentry Hsel.
    assert (exists x, entry = verdict select x) as [x ->].
    { apply elem_of_app in Hentry as [H | H];
        apply list_elem_of_fmap in H as (x & -> & _); eauto. }
    rewrite verdict_selector in Hsel. unfold py_or in Hsel.
    destruct (truthy x) eqn:T.
    + subst x. now rewrite Hverdict.
    + subst s. discriminate.
Qed.

Section SoundEngine.

(** The engine returns matches drawn from the tree it is asked about,
    in document order, each at most once. *)
Hypothesis select_sound :
  forall soup selector l,
    select soup selector = Matches l -> sublist l (descendants soup).

(** C4.  In every summary [apply_exclusions] returns, the elements
    removed are at most the census taken before the removals, so
    [removal_ratio] lies between 0 and 1; when the census is 0 the ratio
    is 0 and [high_removal_warning] is [false]. *)
Theorem removal_ratio_bounded
    (soup soup' : BeautifulSoup) (selectors : list PyObj)
    (result : ExclusionResult) :
  apply_exclusions select soup selectors = (soup', inr result) ->
  original_element_count (summary result) = len (find_all soup)
  /\ (0 <= total_elements_removed (summary result)
      <= original_element_count (summary result))%Z
  /\ (0 <= removal_ratio (summary result))%Q
  /\ (removal_ratio (summary result) <= 1)%Q
  /\ (original_element_count (summary result) = 0%Z ->
      removal_ratio (summary result) = 0%Q
      /\ high_removal_warning (summary result) = false).
Proof.
  intros H. apply apply_exclusions_result in H as (_ & _ & _ & _ & Hagg).
  apply aggregate_fields in Hagg as (_ & Hr & Ho & _).
  assert (Hbound : (0 <= total_elements_removed (summary result)
                    <= original_element_count (summary result))%Z).
  { rewrite Hr, Ho. unfold all_outcomes.
    rewrite map_app, sum_Z_app, sum_rejections, Z.add_0_r.
    pose proof (outcomes_census select select_sound soup
                  (valid_part select selectors)) as [H0 H1].
    unfold len in *. lia. }
  split; [exact Ho |]. split; [exact Hbound |].
  unfold high_removal_warning, removal_ratio.
  destruct (Z.eqb_spec (original_element_count (summary result)) 0)
    as [E | E].
  - repeat split; reflexivity || discriminate.
  - destruct (true_div_bounds _ _ Hbound E) as [Hlo Hhi].
    repeat split; trivial; contradiction.
Qed.

End SoundEngine.


Section LandmarkSelectors.

(** The engine accepts the three landmark selectors, which are constants
    of the module. *)
Hypothesis select_landmarks :
  forall soup s,
    s ∈ PRIMARY_CONTENT_SELECTORS ->
    exists l, select soup (PyStr s) = Matches l.

(** C9.  A valid selector whose query finds no node at the time it runs
    gets the outcome [success = True], [elements_removed = 0], without
    an error message; the tree and the running total stay as they were,
    and that outcome is the one [apply_exclusions] returns for it. *)
Theorem no_match_is_success
    (soup : BeautifulSoup) (selectors : list PyObj)
    (validation : ValidationResult)
    (before after : list ExclusionSelector) (es : ExclusionSelector)
    (t : BeautifulSoup) (rs : list SelectorResult) (n : Z) :
  validate_selectors select selectors 100 = inr validation ->
  valid validation = before ++ es :: after ->
  fold_left (apply_step select) before (soup, [], 0%Z) = (t, rs, n) ->
  select t (es_selector es) = Matches [] ->
  let recorded := mkSelectorResult (es_selector es) true 0 None in
  apply_step select (t, rs, n) es = (t, rs ++ [recorded], n)
  /\ exists soup' result,
      apply_exclusions select soup selectors = (soup', inr result)
      /\ selector_results result !! List.length before = Some recorded.
Proof.
  intros Hv Hsplit Hbefore Hnone recorded.
  split.
  - unfold apply_step. rewrite Hnone. simpl. now rewrite Z.add_0_r.
  - destruct (validate_returns select selectors validation Hv) as (Hle & _).
    destruct (apply_exclusions_returns select select_landmarks
                soup selectors Hle) as [s Hs].
    eexists _, _. split; [exact Hs |].
    destruct (recorded_at select _ _ _ _ _ _ _ _ _ _ _
                Hv Hsplit Hbefore Hs) as [Hlook _].
    rewrite Hlook. unfold outcome. now rewrite Hnone.
Qed.

End LandmarkSelectors.

End Claims.

(** * The claims on concrete documents *)

Section Witnesses.

Import Sample.

Local Abbreviation run := (apply_exclusions MiniCss.select).

(** 101 selectors: the error, its message, the untouched page. *)
Lemma cap_enforced_before_mutation_witness :
  (100 < len (many 101))%Z
  /\ exists msg,
      run page (many 101) = (page, inl (TooManySelectorError msg))
      /\ contains msg "101" = true
      /\ contains msg "100" = true.
Proof.
  assert (H : (100 < len (many 101))%Z) by (vm_compute; reflexivity).
  split; [exact H |].
  destruct (proj1 (proj2 (cap_enforced_before_mutation MiniCss.select))
              (many 101) H) as (msg & _ & Hcount & Hlimit & Hrun).
  exists msg. split; [apply Hrun |]. split; [exact Hcount | exact Hlimit].
Defined.


(** With an engine that knows type selectors only, the footer is removed
    and the third landmark query then raises: an exception that is not the
    cap error leaves [apply_exclusions], within the cap, after the tree was
    changed. *)
Lemma selector_failure_is_isolated_counterexample :
  ~ (forall (select : BeautifulSoup -> PyObj -> Selected) soup selectors soup' e,
        (len selectors <= 100)%Z ->
        apply_exclusions select soup selectors = (soup', inl e) ->
        exists msg, e = TooManySelectorError msg).
Proof.
  intros H.
  destruct (H Demo.names_only_select page [PyStr "footer"] page_without_footer
              (EngineException ("Unsupported selector: " +:+ role_main)))
    as [msg Hmsg].
  - vm_compute. discriminate.
  - vm_compute. reflexivity.
  - discriminate Hmsg.
Qed.


(** One footer among 7 tags. *)
Lemma removal_ratio_bounded_witness :
  exists soup' result,
    run page [PyStr "footer"] = (soup', inr result)
    /\ original_element_count (summary result) = 7%Z
    /\ (0 <= total_elements_removed (summary result) <= 7)%Z
    /\ (0 <= removal_ratio (summary result))%Q
    /\ (removal_ratio (summary result) <= 1)%Q.
Proof.
  destruct (run page [PyStr "footer"]) as [soup' [e | result]] eqn:E;
    [vm_compute in E; discriminate |].
  exists soup', result. split; [reflexivity |].
  destruct (removal_ratio_bounded MiniCss.select MiniCss_sound
              page soup' [PyStr "footer"] result E)
    as (Ho & Hb & Hlo & Hhi & _).
  rewrite Ho in Hb. split; [exact Ho |]. split; [exact Hb |].
  split; [exact Hlo | exact Hhi].
Defined.

(** 2 of 5 is the threshold itself; 399 of 1000 is below it. *)
Lemma high_removal_warning_threshold_witness :
  high_removal_warning (mkExclusionSummary 1 2 5 1 0 false) = true
  /\ should_warn_high_removal (399 # 1000) = false.
Proof.
  destruct high_removal_warning_threshold as (_ & Hdef & _ & _ & Heq & Hlt).
  split.
  - rewrite Hdef. apply Heq. vm_compute. reflexivity.
  - apply Hlt. vm_compute. reflexivity.
Defined.

(** A malformed, a protected and a good selector: three outcomes. *)
Lemma outcome_invariants_witness :
  exists soup' result,
    run page [PyStr "div[unclosed"; PyStr "html"; PyStr "footer"]
    = (soup', inr result)
    /\ Forall outcome_ok (selector_results result)
    /\ (successful_selectors (summary result)
        + failed_selectors (summary result)
        = selectors_processed (summary result))%Z
    /\ List.length (selector_results result) = 3%nat.
Proof.
  destruct (run page [PyStr "div[unclosed"; PyStr "html"; PyStr "footer"])
    as [soup' [e | result]] eqn:E; [vm_compute in E; discriminate |].
  exists soup', result. split; [reflexivity |].
  destruct (outcome_invariants MiniCss.select page soup' _ result E)
    as (Hok & Hsum & _ & Hlen & _).
  split; [exact Hok |]. split; [exact Hsum | exact Hlen].
Defined.

(** Values that are not strings, or are empty, are not protected. *)
Lemma is_protected_selector_leading_token_witness :
  is_protected_selector PyNone = false
  /\ is_protected_selector (PyInt 7) = false
  /\ exists w rest,
      (w = "html" \/ w = "body")
      /\ strip (lower " Body > DIV") = w +:+ rest
      /\ Re.isword_at (Re.peek rest) = false.
Proof.
  destruct is_protected_selector_leading_token
    as (_ & _ & _ & _ & _ & _ & _ & Hstr & _ & Hiff).
  split; [apply Hstr; reflexivity |].
  split; [apply Hstr; reflexivity |].
  apply (Hiff " Body > DIV"); [discriminate | vm_compute; reflexivity].
Defined.

(** [html[unclosed] is protected and malformed: the reason recorded is the
    protection. *)
Lemma protection_checked_before_syntax_witness :
  MiniCss.select scratch_soup (PyStr "html[unclosed")
  = Raises "Malformed selector: html[unclosed"
  /\ is_protected_selector (PyStr "html[unclosed") = true
  /\ mkExclusionSelector (PyStr "html[unclosed") (Some protected_reason)
     ∈ [mkExclusionSelector (PyStr "html[unclosed") (Some protected_reason)].
Proof.
  split; [vm_compute; reflexivity |].
  split; [vm_compute; reflexivity |].
  apply (protection_checked_before_syntax MiniCss.select
           [PyStr "html[unclosed"; PyStr "footer"]
           (mkValidationResult [valid_of "footer"]
              [mkExclusionSelector (PyStr "html[unclosed")
                 (Some protected_reason)] 2 false)
           (PyStr "html[unclosed")).
  - vm_compute. reflexivity.
  - left.
  - vm_compute. reflexivity.
Defined.

(** The footer goes with its [small]; the selector [small] then finds
    nothing and is recorded as a success that removed nothing. *)
Lemma no_match_is_success_witness :
  MiniCss.select page_without_footer (PyStr "small") = Matches []
  /\ exists soup' result,
      run page [PyStr "footer"; PyStr "small"] = (soup', inr result)
      /\ selector_results result !! 1%nat
         = Some (mkSelectorResult (PyStr "small") true 0 None).
Proof.
  split; [vm_compute; reflexivity |].
  destruct (no_match_is_success MiniCss.select MiniCss_landmarks
              page [PyStr "footer"; PyStr "small"]
              (mkValidationResult [valid_of "footer"; valid_of "small"] [] 2 false)
              [valid_of "footer"] [] (valid_of "small")
              page_without_footer
              [mkSelectorResult (PyStr "footer") true 1 None] 1%Z)
    as [_ (soup' & result & Hrun & Hat)];
    try (vm_compute; reflexivity).
  exists soup', result. split; [exact Hrun | exact Hat].
Defined.

End Witnesses.

(** ** The scenarios of the specification *)

Section Scenarios.

Import Sample.

(** One footer among 7 tags: one element removed, a ratio of 1/7, no
    warning. *)
Example scenario_footer :
  exists soup' result,
    apply_exclusions MiniCss.select page [PyStr "footer"] = (soup', inr result)
    /\ soup' = page_without_footer
    /\ total_elements_removed (summary result) = 1%Z
    /\ (removal_ratio (summary result) == 1 # 7)%Q
    /\ high_removal_warning (summary result) = false.
Proof. eexists _, _. repeat split; vm_compute; reflexivity. Qed.

(** 9 advertisements among 12 tags: a ratio of 3/4 and a warning. *)
Example scenario_advertisements :
  exists soup' result,
    apply_exclusions MiniCss.select crowded_page [PyStr ".advertisement"]
    = (soup', inr result)
    /\ total_elements_removed (summary result) = 9%Z
    /\ (removal_ratio (summary result) == 3 # 4)%Q
    /\ high_removal_warning (summary result) = true.
Proof. eexists _, _. repeat split; vm_compute; reflexivity. Qed.

(** A malformed, a protected and a good selector: one success and two
    failures with their reasons. *)
Example scenario_mixed :
  exists soup' result,
    apply_exclusions MiniCss.select page
      [PyStr "div[unclosed"; PyStr "html"; PyStr "footer"]
    = (soup', inr result)
    /\ selector_results result
       = [ mkSelectorResult (PyStr "footer") true 1 None;
           mkSelectorResult (PyStr "div[unclosed") false 0
             (Some "Invalid CSS selector syntax: Malformed selector: div[unclosed");
           mkSelectorResult (PyStr "html") false 0 (Some protected_reason) ].
Proof. eexists _, _. split; vm_compute; reflexivity. Qed.

(** The page keeps its content; the hollow page does not. *)
Example scenario_detection :
  detect_empty_primary_content MiniCss.select page = inr false
  /\ detect_empty_primary_content MiniCss.select hollow_page = inr true
  /\ detect_empty_primary_content MiniCss.select
       (mkTag 0 "[document]" [] [el 1 "div" [EString "Some content"]])
     = inr true.
Proof. repeat split; vm_compute; reflexivity. Qed.

(** Text inside a template counts for the template, not for the article
    around it: the article is empty, the template is not, and the template
    is a landmark by its role, so the detector does not warn. *)
Example scenario_template :
  is_content_element_empty template_article = true
  /\ is_content_element_empty template_tag = false
  /\ detect_empty_primary_content MiniCss.select template_page = inr false.
Proof. repeat split; vm_compute; reflexivity. Qed.

End Scenarios.


(** * Further properties of the module *)

(** ** Removal from the tree *)

Section RemovalFacts.

Lemma detach_children_cons_tag (u : nat) (t : Tag) (cs : list PageElement) :
  detach_children u (ETag t :: cs)
  = (if Nat.eqb (uid t) u then [] else [ETag (detach u t)])
      ++ detach_children u cs.
Proof. reflexivity. Qed.

Lemma detach_absent (u : nat) (t : Tag) : u ∉ uids t -> detach u t = t.
Proof.
  unfold uids.
  induction t using Tag_rect' with
    (Q := fun cs => u ∉ map uid (children_descendants cs) ->
                    detach_children u cs = cs).
  - reflexivity.
  - intros H. rewrite detach_children_cons_tag.
    change (children_descendants (ETag t :: cs))
      with (t :: descendants t ++ children_descendants cs) in H.
    simpl in H. rewrite map_app in H.
    apply not_elem_of_cons in H as [Hne H].
    apply not_elem_of_app in H as [Ht Hcs].
    destruct (Nat.eqb_spec (uid t) u) as [E | _]; [congruence |].
    simpl. now rewrite IHt, IHt0.
  - intros H. change (detach_children u (EString s :: cs))
      with (EString s :: detach_children u cs). now rewrite IHt.
  - intros H. change (detach_children u (EComment s :: cs))
      with (EComment s :: detach_children u cs). now rewrite IHt.
  - intros H. change (detach_children u (ESpecial k s :: cs))
      with (ESpecial k s :: detach_children u cs). now rewrite IHt.
  - intros H. change (detach u (mkTag u0 n a cs))
      with (mkTag u0 n a (detach_children u cs)). now rewrite IHt.
Qed.

Lemma detach_gone (u : nat) (t : Tag) : u ∉ uids (detach u t).
Proof.
  intros H.
  pose proof (elem_of_sublist _ _ _ H (uids_detach u t)) as H'.
  apply list_elem_of_filter in H' as [Hne _]. now apply Hne.
Qed.

Lemma detach_children_app (u : nat) (a b : list PageElement) :
  detach_children u (a ++ b) = detach_children u a ++ detach_children u b.
Proof. apply flat_map_app. Qed.

Lemma detach_comm (u v : nat) (t : Tag) :
  detach u (detach v t) = detach v (detach u t).
Proof.
  induction t using Tag_rect' with
    (Q := fun cs => detach_children u (detach_children v cs)
                    = detach_children v (detach_children u cs)).
  - reflexivity.
  - rewrite !detach_children_cons_tag, !detach_children_app, IHt0.
    f_equal.
    destruct (Nat.eqb_spec (uid t) v) as [Ev | Ev];
      destruct (Nat.eqb_spec (uid t) u) as [Eu | Eu];
      rewrite ?detach_children_cons_tag, ?uid_detach;
      repeat match goal with
             | |- context [Nat.eqb ?a ?b] => destruct (Nat.eqb_spec a b)
             end;
      try congruence; try reflexivity.
    now rewrite IHt.
  - change (detach_children v (EString s :: cs))
      with (EString s :: detach_children v cs).
    change (detach_children u (EString s :: cs))
      with (EString s :: detach_children u cs).
    change (detach_children u (EString s :: detach_children v cs))
      with (EString s :: detach_children u (detach_children v cs)).
    change (detach_children v (EString s :: detach_children u cs))
      with (EString s :: detach_children v (detach_children u cs)).
    now rewrite IHt.
  - change (detach_children v (EComment s :: cs))
      with (EComment s :: detach_children v cs).
    change (detach_children u (EComment s :: cs))
      with (EComment s :: detach_children u cs).
    change (detach_children u (EComment s :: detach_children v cs))
      with (EComment s :: detach_children u (detach_children v cs)).
    change (detach_children v (EComment s :: detach_children u cs))
      with (EComment s :: detach_children v (detach_children u cs)).
    now rewrite IHt.
  - change (detach_children v (ESpecial k s :: cs))
      with (ESpecial k s :: detach_children v cs).
    change (detach_children u (ESpecial k s :: cs))
      with (ESpecial k s :: detach_children u cs).
    change (detach_children u (ESpecial k s :: detach_children v cs))
      with (ESpecial k s :: detach_children u (detach_children v cs)).
    change (detach_children v (ESpecial k s :: detach_children u cs))
      with (ESpecial k s :: detach_children v (detach_children u cs)).
    now rewrite IHt.
  - change (mkTag u0 n a (detach_children u (detach_children v cs))
            = mkTag u0 n a (detach_children v (detach_children u cs))).
    now rewrite IHt.
Qed.

Lemma decompose_all_cons (e : Tag) (l : list Tag) (t : Tag) :
  decompose_all (e :: l) t = decompose_all l (decompose e t).
Proof. reflexivity. Qed.

Lemma detach_names (u : nat) (t : Tag) :
  sublist (map name (descendants (detach u t))) (map name (descendants t)).
Proof.
  induction t using Tag_rect' with
    (Q := fun cs =>
       sublist (map name (children_descendants (detach_children u cs)))
               (map name (children_descendants cs))).
  - constructor.
  - rewrite detach_children_cons_tag.
    change (children_descendants (ETag t :: cs))
      with (t :: descendants t ++ children_descendants cs).
    destruct (Nat.eqb (uid t) u).
    + simpl. apply sublist_cons. rewrite map_app.
      now apply sublist_inserts_l.
    + change (children_descendants ([ETag (detach u t)] ++ detach_children u cs))
        with (detach u t :: descendants (detach u t)
                ++ children_descendants (detach_children u cs)).
      simpl. rewrite !map_app.
      replace (name (detach u t)) with (name t) by now destruct t.
      apply sublist_skip. now apply sublist_app.
  - exact IHt.
  - exact IHt.
  - exact IHt.
  - exact IHt.
Qed.

Lemma detach_strings_of (types : option StringContainer) (u : nat) (t : Tag) :
  sublist (strings_of types (detach u t)) (strings_of types t).
Proof.
  induction t using Tag_rect' with
    (Q := fun cs =>
       sublist (children_strings types (detach_children u cs))
               (children_strings types cs)).
  - constructor.
  - rewrite detach_children_cons_tag.
    change (children_strings types (ETag t :: cs))
      with (strings_of types t ++ children_strings types cs).
    destruct (Nat.eqb (uid t) u).
    + now apply sublist_inserts_l.
    + change (children_strings types
                ([ETag (detach u t)] ++ detach_children u cs))
        with (strings_of types (detach u t)
                ++ children_strings types (detach_children u cs)).
      now apply sublist_app.
  - change (sublist
              (wanted types (EString s)
                 ++ children_strings types (detach_children u cs))
              (wanted types (EString s) ++ children_strings types cs)).
    now apply sublist_app.
  - exact IHt.
  - change (sublist
              (wanted types (ESpecial k s)
                 ++ children_strings types (detach_children u cs))
              (wanted types (ESpecial k s) ++ children_strings types cs)).
    now apply sublist_app.
  - exact IHt.
Qed.

Lemma name_detach (u : nat) (t : Tag) : name (detach u t) = name t.
Proof. now destruct t. Qed.

Lemma detach_strings (u : nat) (t : Tag) :
  sublist (all_strings (detach u t)) (all_strings t).
Proof.
  unfold all_strings, interesting_string_types.
  rewrite name_detach. apply detach_strings_of.
Qed.

Lemma meaningful_detach (u : nat) (t : Tag) :
  meaningful (detach u t) -> meaningful t.
Proof.
  assert (Htag : forall names, contains_tag names (detach u t) ->
                               contains_tag names t).
  { intros names (d & Hd & Hn).
    assert (Hin : name d ∈ map name (descendants t)).
    { apply (elem_of_sublist (map name (descendants (detach u t))));
        [now apply list_elem_of_fmap_2 | apply detach_names]. }
    apply list_elem_of_fmap in Hin as (d' & E & Hd').
    exists d'. split; [exact Hd' | now rewrite <- E]. }
  unfold meaningful.
  intros [H | [H | [(s & Hs & Hb) | H]]]; auto.
  right. right. left. exists s. split; [| exact Hb].
  apply (elem_of_sublist _ _ _ Hs), detach_strings.
Qed.

Lemma meaningful_decompose_all (l : list Tag) (t : Tag) :
  meaningful (decompose_all l t) -> meaningful t.
Proof.
  revert t. induction l as [| e l IH]; intros t; [trivial |].
  rewrite decompose_all_cons. intros H.
  apply IH, meaningful_detach in H. exact H.
Qed.


End RemovalFacts.

Section RemovalProperties.

Lemma decompose_all_app (l k : list Tag) (soup : BeautifulSoup) :
  decompose_all (l ++ k) soup = decompose_all k (decompose_all l soup).
Proof. apply fold_left_app. Qed.

(** X1.  After the removal loop none of the matched elements is left in
    the document; the census of tags never grows, and it drops when one of
    the matched elements was in the document. *)
Theorem removal_loop_removes_matches (l : list Tag) (soup : BeautifulSoup) :
  (forall e, e ∈ l -> uid e ∉ uids (decompose_all l soup))
  /\ (len (find_all (decompose_all l soup)) <= len (find_all soup))%Z
  /\ (forall e, e ∈ l -> uid e ∈ uids soup ->
      (len (find_all (decompose_all l soup)) < len (find_all soup))%Z).
Proof.
  pose proof (uids_decompose_all l soup) as Hsub.
  pose proof (sublist_length _ _ Hsub) as Hlen.
  pose proof (length_filter (fun x => x ∉ map uid l) (uids soup)) as Hle.
  split; [| split].
  - intros e He Hin.
    pose proof (elem_of_sublist _ _ _ Hin Hsub) as H'.
    apply list_elem_of_filter in H' as [Hne _].
    apply Hne. now apply list_elem_of_fmap_2.
  - unfold len, find_all. unfold uids in *. rewrite !length_map in *. lia.
  - intros e He Hin.
    assert (Hnn : ~ (uid e ∉ map uid l)).
    { intros H. apply H. now apply list_elem_of_fmap_2. }
    pose proof (length_filter_lt (fun x => x ∉ map uid l) _ _ Hin Hnn) as Hlt.
    unfold len, find_all. unfold uids in *. rewrite !length_map in *. lia.
Qed.

(** X2.  The removal loop skips what is already gone: an element of the
    match list that is no longer in the document when its turn comes (for
    instance because it left with an ancestor matched before it) changes
    nothing. *)
Theorem removal_loop_skips_absent
    (l l' : list Tag) (e : Tag) (soup : BeautifulSoup) :
  uid e ∉ uids (decompose_all l soup) ->
  decompose_all (l ++ e :: l') soup = decompose_all (l ++ l') soup.
Proof.
  intros H. rewrite !decompose_all_app, decompose_all_cons.
  unfold decompose at 1. now rewrite detach_absent.
Qed.

(** X3.  The tree left by the removal loop does not depend on the order in
    which the matched elements are decomposed. *)
Theorem decompose_all_order_irrelevant (l l' : list Tag) (soup : BeautifulSoup) :
  l ≡ₚ l' -> decompose_all l soup = decompose_all l' soup.
Proof.
  intros H. revert soup.
  induction H as [| x l l' _ IH | x y l | l l' l'' _ IH1 _ IH2]; intros soup.
  - reflexivity.
  - rewrite !decompose_all_cons. apply IH.
  - rewrite !decompose_all_cons. unfold decompose. now rewrite detach_comm.
  - now rewrite IH1.
Qed.

(** X4.  Removal never creates content: an element that is empty stays
    empty when elements are decomposed below it. *)
Theorem removal_keeps_empty_elements_empty (l : list Tag) (element : Tag) :
  is_content_element_empty element = true ->
  is_content_element_empty (decompose_all l element) = true.
Proof.
  unfold is_content_element_empty. rewrite !negb_true_iff.
  intros H. apply not_true_iff_false. intros Hm.
  apply has_meaningful_content_iff, meaningful_decompose_all,
    has_meaningful_content_iff in Hm.
  congruence.
Qed.


End RemovalProperties.

(** ** Validation and the applier *)

Section ApplierProperties.

Variable select : BeautifulSoup -> PyObj -> Selected.

Lemma verdict_accepted (s : PyObj) :
  accepted select s = true ->
  verdict select s = mkExclusionSelector s None
  /\ exists str,
      s = PyStr str /\ str <> EmptyString
      /\ is_protected_selector (PyStr str) = false
      /\ exists l, select scratch_soup (PyStr str) = Matches l.
Proof.
  unfold accepted, verdict.
  destruct s as [str | | b | z]; simpl;
    try (rewrite ?orb_true_r; discriminate).
  destruct (String.eqb_spec str EmptyString) as [E | E]; simpl; [discriminate |].
  fold (is_protected_selector (PyStr str)).
  replace (is_protected_selector (PyStr str))
    with (existsb (fun pattern => Re.re_match pattern (strip (lower str)))
            protected_patterns).
  - destruct (existsb _ _) eqn:P; [discriminate |].
    destruct (select scratch_soup (PyStr str)) as [l |] eqn:S; [| discriminate].
    intros _. split; [reflexivity |]. exists str. repeat split; eauto.
    unfold is_protected_selector. simpl.
    destruct (String.eqb_spec str EmptyString); [contradiction | exact P].
  - unfold is_protected_selector. simpl.
    now destruct (String.eqb_spec str EmptyString).
Qed.

Lemma valid_part_selectors (selectors : list PyObj) :
  map es_selector (valid_part select selectors)
  = filter (fun s => accepted select s = true) selectors.
Proof.
  unfold valid_part. induction selectors as [| s l IH]; [reflexivity |].
  rewrite filter_cons. destruct (decide (accepted select s = true)) as [A | A].
  - simpl. rewrite IH. f_equal.
    now rewrite (proj1 (verdict_accepted s A)).
  - exact IH.
Qed.

Lemma validate_returns_at (selectors : list PyObj) (max_selectors : Z)
    (v : ValidationResult) :
  validate_selectors select selectors max_selectors = inr v ->
  (len selectors <= max_selectors)%Z
  /\ v = mkValidationResult (valid_part select selectors)
           (invalid_part select selectors) (len selectors) false.
Proof.
  unfold validate_selectors.
  destruct (Z.ltb_spec max_selectors (len selectors)); [discriminate |].
  rewrite validate_fold. intros [= <-]. auto.
Qed.

(** X6.  When [validate_selectors] returns, the count is within the cap,
    [total_count] is the length of the input and [cap_exceeded] is false;
    the valid selectors are input selectors in their input order, each a
    non-empty string that is not protected and that the engine accepts on
    the scratch tree, recorded without a reason; every rejected selector
    has a reason; and each input selector is on one of the two lists. *)
Theorem validate_selectors_partition
    (selectors : list PyObj) (max_selectors : Z) (v : ValidationResult) :
  validate_selectors select selectors max_selectors = inr v ->
  (len selectors <= max_selectors)%Z
  /\ total_count v = len selectors
  /\ cap_exceeded v = false
  /\ sublist (map es_selector (valid v)) selectors
  /\ (List.length (valid v) + List.length (invalid v) = List.length selectors)%nat
  /\ Forall (fun e =>
               es_reason e = None
               /\ exists str,
                   es_selector e = PyStr str /\ str <> EmptyString
                   /\ is_protected_selector (PyStr str) = false
                   /\ exists l, select scratch_soup (PyStr str) = Matches l)
            (valid v)
  /\ Forall (fun e => exists reason, es_reason e = Some reason) (invalid v).
Proof.
  intros H. apply validate_returns_at in H as [Hle ->]. cbn [valid invalid
    total_count cap_exceeded].
  split; [exact Hle |]. split; [reflexivity |]. split; [reflexivity |].
  split; [rewrite valid_part_selectors; apply sublist_filter |].
  split; [apply parts_length |].
  split; apply Forall_forall; intros e He;
    apply list_elem_of_fmap in He as (s & -> & Hs);
    apply list_elem_of_filter in Hs as [Hs _].
  - destruct (verdict_accepted s Hs) as (-> & str & -> & Hrest).
    split; [reflexivity |]. exists str. auto.
  - now apply verdict_rejected.
Qed.

(** X7.  The outcome list is not in input order: the outcomes of the valid
    selectors come first, in their order, and the outcomes of the rejected
    selectors follow, each a failure that removed nothing and carries the
    validator's reason. *)
Theorem outcomes_valid_then_rejected
    (doc doc' : BeautifulSoup) (selectors : list PyObj)
    (result : ExclusionResult) (v : ValidationResult) :
  apply_exclusions select doc selectors = (doc', inr result) ->
  validate_selectors select selectors 100 = inr v ->
  exists applied,
    selector_results result
    = applied
        ++ map (fun es => mkSelectorResult (es_selector es) false 0 (es_reason es))
             (invalid v)
    /\ map selector applied = map es_selector (valid v).
Proof.
  intros Ha Hv.
  apply apply_exclusions_result in Ha as (_ & _ & _ & -> & _).
  apply validate_returns in Hv as (_ & -> & ->).
  exists (snd (outcomes select doc (valid_part select selectors))).
  split; [reflexivity | apply outcomes_selectors].
Qed.

Lemma none_accepted (selectors : list PyObj) :
  (forall s, s ∈ selectors ->
             rejected_outright s = true
             \/ exists text, select scratch_soup s = Raises text) ->
  filter (fun s => accepted select s = true) selectors = [].
Proof.
  induction selectors as [| s l IH]; intros Hrej; [reflexivity |].
  rewrite filter_cons.
  assert (A : accepted select s = false).
  { destruct (Hrej s) as [R | [text R]]; [left | |].
    - unfold rejected_outright in R. unfold accepted.
      destruct (negb (truthy s) || negb (isinstance_str s))%bool;
        [reflexivity |].
      simpl in R. now rewrite R.
    - unfold accepted. rewrite R.
      destruct (negb (truthy s) || negb (isinstance_str s))%bool;
        [reflexivity |].
      now destruct (is_protected_selector s). }
  destruct (decide (accepted select s = true)); [congruence |].
  apply IH. intros x Hx. apply Hrej. now right.
Qed.

(** X8.  Selectors that validation turns down never touch the tree: when
    every selector of the list is empty, not a string, protected, or
    refused by the engine on the scratch tree (in particular when the list
    is empty), the document is returned as it was, nothing is reported
    removed, and every selector is reported failed. *)
Theorem rejected_selectors_leave_document
    (doc doc' : BeautifulSoup) (selectors : list PyObj)
    (result : ExclusionResult) :
  apply_exclusions select doc selectors = (doc', inr result) ->
  (forall s, s ∈ selectors ->
             rejected_outright s = true
             \/ exists text, select scratch_soup s = Raises text) ->
  doc' = doc
  /\ soup result = doc
  /\ total_elements_removed (summary result) = 0%Z
  /\ successful_selectors (summary result) = 0%Z
  /\ failed_selectors (summary result) = len selectors
  /\ (removal_ratio (summary result) == 0)%Q
  /\ high_removal_warning (summary result) = false.
Proof.
  intros Ha Hrej.
  pose proof (none_accepted selectors Hrej) as Hnone.
  apply apply_exclusions_result in Ha as (_ & Hdoc & Hsoup & Hrs & Hagg).
  apply aggregate_fields in Hagg as (_ & Hr & _ & Hs & Hf & _).
  unfold final_soup, all_outcomes, valid_part in *.
  rewrite Hnone in *. simpl in *. subst doc'.
  assert (Hlen : List.length (invalid_part select selectors)
                 = List.length selectors).
  { pose proof (parts_length select selectors) as H.
    unfold valid_part in H. rewrite Hnone in H. exact H. }
  assert (Hallfail : forall l,
             filter (fun r => success r = false) (map rejection l)
             = map rejection l).
  { intros l. induction l as [| e l IH]; [reflexivity |].
    simpl. rewrite filter_cons_True by reflexivity. now rewrite IH. }
  assert (Hnosucc : forall l,
             filter (fun r => success r = true) (map rejection l) = []).
  { intros l. induction l as [| e l IH]; [reflexivity |].
    simpl. rewrite filter_cons_False by discriminate. exact IH. }
  assert (Hzero : total_elements_removed (summary result) = 0%Z)
    by (rewrite Hr; apply sum_rejections).
  split; [reflexivity |]. split; [exact Hsoup |]. split; [exact Hzero |].
  split; [now rewrite Hs, Hnosucc |].
  split; [rewrite Hf, Hallfail; unfold len; now rewrite length_map, Hlen |].
  assert (Hratio : (removal_ratio (summary result) == 0)%Q).
  { unfold removal_ratio. rewrite Hzero.
    destruct (Z.eqb (original_element_count (summary result)) 0);
      [reflexivity |].
    unfold true_div, Qdiv. apply Qmult_0_l. }
  split; [exact Hratio |].
  unfold high_removal_warning. apply not_true_iff_false. intros Hb.
  apply Qle_bool_iff in Hb. rewrite Hratio in Hb.
  revert Hb. apply Qlt_not_le. reflexivity.
Qed.

Section SoundEngine.

Hypothesis select_sound :
  forall soup selector l,
    select soup selector = Matches l -> sublist l (descendants soup).

(** X9.  With an engine whose matches are tags of the queried tree, each
    returned once, the document shrinks by at least what is reported: the
    tags left after the call plus the elements reported removed are at most
    the tags counted before it. *)
Theorem document_shrinks_by_reported_count
    (doc doc' : BeautifulSoup) (selectors : list PyObj)
    (result : ExclusionResult) :
  apply_exclusions select doc selectors = (doc', inr result) ->
  (len (find_all doc') + total_elements_removed (summary result)
   <= len (find_all doc))%Z
  /\ soup result = doc'.
Proof.
  intros Ha.
  apply apply_exclusions_result in Ha as (_ & -> & Hsoup & _ & Hagg).
  apply aggregate_fields in Hagg as (_ & Hr & _).
  split; [| exact Hsoup].
  rewrite Hr. unfold all_outcomes, final_soup.
  rewrite map_app, sum_Z_app, sum_rejections, Z.add_0_r.
  apply (outcomes_census select select_sound).
Qed.

End SoundEngine.

End ApplierProperties.

(** ** The ratio and the classifier *)

Section RatioAndClassifier.

Lemma should_warn_integer (removed original : Z) :
  (0 < original)%Z ->
  should_warn_high_removal (calculate_removal_ratio removed original) = true
  <-> (2 * original <= 5 * removed)%Z.
Proof.
  intros Hpos.
  unfold should_warn_high_removal, calculate_removal_ratio, warning_threshold.
  destruct original as [| p | p]; try lia.
  cbn [Z.eqb]. rewrite Qle_bool_iff.
  unfold true_div, Qdiv, Qinv, Qmult, Qle, inject_Z. cbn [Qnum Qden fst snd].
  lia.
Qed.


Lemma lower_char_space (c : ascii) : isspace (lower_char c) = isspace c.
Proof. destruct c as [[] [] [] [] [] [] [] []]; reflexivity. Qed.

Lemma lower_char_idem (c : ascii) : lower_char (lower_char c) = lower_char c.
Proof. destruct c as [[] [] [] [] [] [] [] []]; reflexivity. Qed.

Lemma lower_idem (s : string) : lower (lower s) = lower s.
Proof.
  induction s as [| c s IH]; simpl; [reflexivity |].
  now rewrite lower_char_idem, IH.
Qed.

Lemma lstrip_lower (s : string) : lstrip (lower s) = lower (lstrip s).
Proof.
  induction s as [| c s IH]; simpl; [reflexivity |].
  rewrite lower_char_space. now destruct (isspace c).
Qed.

Lemma rstrip_lower (s : string) : rstrip (lower s) = lower (rstrip s).
Proof.
  induction s as [| c s IH]; simpl; [reflexivity |].
  rewrite IH, lower_char_space.
  destruct (rstrip s); simpl; [now destruct (isspace c) | reflexivity].
Qed.

Lemma strip_lower (s : string) : strip (lower s) = lower (strip s).
Proof. unfold strip. now rewrite lstrip_lower, rstrip_lower. Qed.

Lemma rstrip_idem (s : string) : rstrip (rstrip s) = rstrip s.
Proof.
  induction s as [| c s IH]; simpl; [reflexivity |].
  destruct (rstrip s) as [| d r] eqn:R.
  - destruct (isspace c) eqn:E; simpl; [reflexivity | now rewrite E].
  - change (rstrip (String c (String d r))) with
      (match rstrip (String d r) with
       | EmptyString => if isspace c then EmptyString else String c EmptyString
       | r' => String c r'
       end).
    now rewrite IH.
Qed.

Lemma lstrip_head (s : string) :
  match lstrip s with
  | EmptyString => True
  | String c _ => isspace c = false
  end.
Proof.
  induction s as [| c s IH]; simpl; [exact I |].
  destruct (isspace c) eqn:E; [exact IH | exact E].
Qed.

Lemma lstrip_rstrip_lstrip (s : string) :
  lstrip (rstrip (lstrip s)) = rstrip (lstrip s).
Proof.
  pose proof (lstrip_head s) as H.
  destruct (lstrip s) as [| c r]; [reflexivity |].
  cbn [rstrip]. destruct (rstrip r); rewrite ?H; cbn [lstrip]; now rewrite H.
Qed.

Lemma strip_idem (s : string) : strip (strip s) = strip s.
Proof. unfold strip. now rewrite lstrip_rstrip_lstrip, rstrip_idem. Qed.

Lemma is_protected_selector_str (s : string) :
  is_protected_selector (PyStr s)
  = existsb (fun pattern => Re.re_match pattern (strip (lower s)))
      protected_patterns.
Proof.
  unfold is_protected_selector. simpl.
  destruct (String.eqb_spec s EmptyString) as [-> | _]; reflexivity.
Qed.

(** X11.  The classification of a string does not change when its case is
    lowered or when the whitespace around it is stripped: [HTML], [ html ]
    and [html] are classified alike. *)
Theorem is_protected_selector_ignores_case_and_padding (s : string) :
  is_protected_selector (PyStr (lower s)) = is_protected_selector (PyStr s)
  /\ is_protected_selector (PyStr (strip s)) = is_protected_selector (PyStr s).
Proof.
  rewrite !is_protected_selector_str. split.
  - now rewrite lower_idem.
  - now rewrite <- strip_lower, strip_idem.
Qed.

End RatioAndClassifier.

(** ** Diagnostics *)

Section DiagnosticsProperties.

Variable format_percent : Q -> string.
Variable type_name : Exception -> string.

Local Abbreviation warnings_of := (log_exclusion_warnings format_percent).

Lemma failure_records_kept (logger : string) (l : list SelectorResult) :
  List.filter is_selector_failure (map (selector_failed_record logger) l)
  = map (selector_failed_record logger) l.
Proof. induction l as [| r l IH]; simpl; [reflexivity | now rewrite IH]. Qed.

Lemma failure_part (logger : string) (l : list SelectorResult) :
  (if nonempty l then map (selector_failed_record logger) l else [])
  = map (selector_failed_record logger) l.
Proof. now destruct l. Qed.

Lemma failure_warnings (result : ExclusionResult) (name : option string) :
  List.filter is_selector_failure (warnings_of result name)
  = map (selector_failed_record (get_logger name))
      (filter (fun r => success r = false) (selector_results result)).
Proof.
  unfold log_exclusion_warnings. cbv zeta.
  rewrite failure_part, !List.filter_app, failure_records_kept.
  destruct (high_removal_warning (summary result));
    destruct (empty_primary_content_warning (summary result));
    destruct (Z.ltb 0 (total_elements_removed (summary result)));
    cbn [List.filter is_selector_failure message];
    now rewrite ?app_nil_r.
Qed.

Section AppliedResult.

Variable select : BeautifulSoup -> PyObj -> Selected.

(** X12.  The warnings [Exclusion selector failed] written for a result of
    [apply_exclusions] are one for each failed outcome, in the order of
    the outcome list, each with the selector and the error message of its
    outcome; their number is the summary's [failed_selectors]. *)
Theorem one_warning_per_failed_selector
    (doc doc' : BeautifulSoup) (selectors : list PyObj)
    (result : ExclusionResult) (name : option string) :
  apply_exclusions select doc selectors = (doc', inr result) ->
  List.filter is_selector_failure (warnings_of result name)
  = map (selector_failed_record (get_logger name))
      (filter (fun r => success r = false) (selector_results result))
  /\ len (List.filter is_selector_failure (warnings_of result name))
     = failed_selectors (summary result).
Proof.
  intros Ha. rewrite failure_warnings. split; [reflexivity |].
  apply apply_exclusions_result in Ha as (_ & _ & _ & -> & Hagg).
  apply aggregate_fields in Hagg as (_ & _ & _ & _ & -> & _).
  unfold len. now rewrite length_map.
Qed.

(** X14.  For a result of [apply_exclusions], a high-removal warning never
    comes alone: when the summary raises [high_removal_warning], elements
    were removed and the log ends with the INFO summary line. *)
Theorem high_removal_warning_comes_with_summary
    (doc doc' : BeautifulSoup) (selectors : list PyObj)
    (result : ExclusionResult) (name : option string) :
  apply_exclusions select doc selectors = (doc', inr result) ->
  high_removal_warning (summary result) = true ->
  (0 < total_elements_removed (summary result))%Z
  /\ exists r,
      last (warnings_of result name) = Some r
      /\ level r = INFO
      /\ lookup_extra "elements_removed" r
         = Some (XInt (total_elements_removed (summary result))).
Proof.
  intros Ha Hhigh.
  apply apply_exclusions_result in Ha as (_ & _ & _ & _ & Hagg).
  apply aggregate_fields in Hagg as (_ & _ & Ho & _).
  assert (Hpos : (0 < total_elements_removed (summary result))%Z).
  { change (should_warn_high_removal
              (calculate_removal_ratio (total_elements_removed (summary result))
                 (original_element_count (summary result))) = true) in Hhigh.
    destruct (Z.eq_dec (original_element_count (summary result)) 0%Z) as [E | E].
    - rewrite E in Hhigh. discriminate.
    - apply should_warn_integer in Hhigh; [| rewrite Ho in *; unfold len in *; lia].
      rewrite Ho in *. unfold len in *. lia. }
  split; [exact Hpos |].
  unfold log_exclusion_warnings. cbv zeta.
  destruct (Z.ltb_spec 0 (total_elements_removed (summary result))); [| lia].
  rewrite !app_assoc, last_snoc. eexists. repeat split.
Qed.

End AppliedResult.

Lemma warnings_logger (result : ExclusionResult) (name : option string) :
  Forall (fun r => logger_name r = get_logger name) (warnings_of result name).
Proof.
  unfold log_exclusion_warnings. cbv zeta. rewrite failure_part.
  apply Forall_app. split.
  - apply Forall_forall. intros r Hr.
    now apply list_elem_of_fmap in Hr as (x & -> & _).
  - destruct (high_removal_warning (summary result));
      destruct (empty_primary_content_warning (summary result));
      destruct (Z.ltb 0 (total_elements_removed (summary result)));
      simpl; repeat (constructor; [reflexivity |]); constructor.
Qed.

(** X13.  [log_exclusion_warnings] writes to one logger, at the levels
    WARNING and INFO only; it writes an INFO record exactly when elements
    were removed, and that record is the last one. *)
Theorem warnings_log_levels (result : ExclusionResult) (name : option string) :
  Forall (fun r => logger_name r = get_logger name
                   /\ (level r = WARNING \/ level r = INFO))
         (warnings_of result name)
  /\ (forall r, r ∈ warnings_of result name -> level r = INFO ->
                (0 < total_elements_removed (summary result))%Z
                /\ last (warnings_of result name) = Some r)
  /\ ((0 < total_elements_removed (summary result))%Z ->
      exists r, last (warnings_of result name) = Some r /\ level r = INFO).
Proof.
  unfold log_exclusion_warnings. cbv zeta. rewrite failure_part.
  set (failures := map _ _).
  assert (Hf : Forall (fun r => logger_name r = get_logger name
                                /\ level r = WARNING) failures).
  { apply Forall_forall. intros r Hr.
    apply list_elem_of_fmap in Hr as (x & -> & _). split; reflexivity. }
  split; [| split].
  - apply Forall_app. split.
    { eapply Forall_impl; [exact Hf |]. intros r [? ?]. auto. }
    destruct (high_removal_warning (summary result));
      destruct (empty_primary_content_warning (summary result));
      destruct (Z.ltb 0 (total_elements_removed (summary result)));
      simpl;
      repeat (constructor;
              [split; [reflexivity
                      | first [left; reflexivity | right; reflexivity]] |]);
      constructor.
  - intros r Hr Hinfo.
    destruct (Z.ltb_spec 0 (total_elements_removed (summary result)))
      as [Hpos | Hnone].
    + split; [exact Hpos |].
      rewrite !app_assoc, last_snoc. f_equal.
      rewrite !app_assoc in Hr. apply elem_of_app in Hr as [Hr | Hr].
      * exfalso. rewrite <- !app_assoc in Hr.
        apply elem_of_app in Hr as [Hr | Hr].
        { rewrite Forall_forall in Hf. destruct (Hf r Hr) as [_ Hw]. congruence. }
        destruct (high_removal_warning (summary result));
          destruct (empty_primary_content_warning (summary result));
          simpl in Hr;
          repeat (apply elem_of_cons in Hr as [-> | Hr]; [discriminate |]);
          inversion Hr.
      * apply elem_of_cons in Hr as [-> | Hr]; [reflexivity | inversion Hr].
    + exfalso. apply elem_of_app in Hr as [Hr | Hr].
      { rewrite Forall_forall in Hf. destruct (Hf r Hr) as [_ Hw]. congruence. }
      destruct (high_removal_warning (summary result));
        destruct (empty_primary_content_warning (summary result));
        simpl in Hr;
        repeat (apply elem_of_cons in Hr as [-> | Hr]; [discriminate |]);
        inversion Hr.
  - intros Hpos.
    destruct (Z.ltb_spec 0 (total_elements_removed (summary result))); [| lia].
    rewrite !app_assoc, last_snoc. eexists. split; reflexivity.
Qed.

(** X15.  Every record of [log_exclusion_warnings] and of
    [log_exclusion_errors] carries the field [operation] with the value
    [exclude], except the high-removal warning, which has no such field. *)
Theorem operation_field_of_records
    (result : ExclusionResult) (error : Exception) (selectors : list PyObj)
    (name : option string) :
  (forall r, r ∈ warnings_of result name ->
             (lookup_extra "warning_type" r = Some (XStr "high_removal")
              /\ lookup_extra "operation" r = None)
             \/ (lookup_extra "warning_type" r <> Some (XStr "high_removal")
                 /\ lookup_extra "operation" r = Some (XStr "exclude")))
  /\ (forall r, r ∈ log_exclusion_errors type_name error selectors name ->
                lookup_extra "operation" r = Some (XStr "exclude")).
Proof.
  split.
  - unfold log_exclusion_warnings. cbv zeta. rewrite failure_part.
    intros r Hr. apply elem_of_app in Hr as [Hr | Hr].
    + apply list_elem_of_fmap in Hr as (x & -> & _).
      right. split; [discriminate | reflexivity].
    + destruct (high_removal_warning (summary result));
        destruct (empty_primary_content_warning (summary result));
        destruct (Z.ltb 0 (total_elements_removed (summary result)));
        simpl in Hr;
        repeat (apply elem_of_cons in Hr as [-> | Hr];
                [first [ left; split; reflexivity
                       | right; split; [discriminate | reflexivity] ] |]);
        inversion Hr.
  - unfold log_exclusion_errors. intros r Hr.
    destruct (is_too_many error);
      apply elem_of_cons in Hr as [-> | Hr]; try reflexivity; inversion Hr.
Qed.

End DiagnosticsProperties.

(** ** The exclusion step of the orchestrator *)

Section OrchestratorProperties.

Variable format_percent : Q -> string.
Variable type_name : Exception -> string.
Variable parse : string -> BeautifulSoup.
Variable render : BeautifulSoup -> string.
Variable select : BeautifulSoup -> PyObj -> Selected.
Variable module_name : string.
Variable finish_seconds : Q.
Variable finish_ms : Z.
Variable read_ms : Z.

Local Abbreviation step_of :=
  (exclusion_step format_percent type_name parse render select module_name
     finish_seconds finish_ms read_ms).

Local Abbreviation entered :=
  (measure_time_enter "exclusion" (get_logger (Some module_name))).

Local Abbreviation completed :=
  (measure_time_exit finish_seconds finish_ms "exclusion"
     (get_logger (Some module_name))).





(** X20.  Once selectors are configured, the step logs the start and the
    completion of the timed block on the orchestrator's logger on every
    path, also when [apply_exclusions] raises, and everything logged after
    them goes to the logger [obsidian_capture] of the exclusion module. *)
Theorem exclusion_step_log_shape (content : string) (selectors : list PyObj) :
  selectors <> [] ->
  exists rest,
    step_log (step_of content selectors) = entered ++ completed ++ rest
    /\ Forall (fun r => logger_name r = "obsidian_capture") rest
    /\ (exclusion_result (step_of content selectors) = None ->
        exists r, rest = [r] /\ (level r = WARNING \/ level r = ERROR)).
Proof.
  intros Hne. unfold exclusion_step.
  destruct selectors as [| s l]; [contradiction |]. cbn [nonempty].
  destruct (apply_exclusions select (parse content) (s :: l))
    as [t [e | result]] eqn:A.
  - destruct e; eexists; (split; [reflexivity |]); simpl;
      (split; [repeat constructor |]); intros _; eexists;
      (split; [reflexivity |]); auto.
  - eexists. split; [reflexivity |]. split; [| discriminate].
    exact (warnings_logger format_percent result None).
Qed.


Section Landmarks.

Hypothesis select_landmarks :
  forall soup s,
    s ∈ PRIMARY_CONTENT_SELECTORS -> exists l, select soup (PyStr s) = Matches l.


End Landmarks.

Section SoundEngine.

Hypothesis select_sound :
  forall soup selector l,
    select soup selector = Matches l -> sublist l (descendants soup).

(** X19.  With an engine whose matches are tags of the queried tree, each
    returned once, the [elements_excluded] the orchestrator reports lies
    between 0 and the number of tags of the parsed content. *)
Theorem elements_excluded_bounded (content : string) (selectors : list PyObj) :
  (0 <= elements_excluded (step_of content selectors)
   <= len (find_all (parse content)))%Z.
Proof.
  unfold elements_excluded, exclusion_step.
  assert (Hnn : (0 <= len (find_all (parse content)))%Z) by (unfold len; lia).
  destruct (nonempty selectors); [| simpl; lia].
  destruct (apply_exclusions select (parse content) selectors)
    as [t [e | result]] eqn:A.
  - destruct e; simpl; lia.
  - cbn [exclusion_result].
    apply apply_exclusions_result in A as (_ & _ & _ & _ & Hagg).
    apply aggregate_fields in Hagg as (_ & -> & _).
    unfold all_outcomes.
    rewrite map_app, sum_Z_app, sum_rejections, Z.add_0_r.
    pose proof (outcomes_census select select_sound (parse content)
                  (valid_part select selectors)) as [H0 H1].
    unfold len in *. lia.
Qed.

End SoundEngine.

End OrchestratorProperties.

(** ** The further properties on concrete documents *)

Section FurtherWitnesses.

Import Sample.

Local Abbreviation small := (mkTag 7 "small" [] [EString "Foot"]).
Local Abbreviation footer := (mkTag 6 "footer" [] [ETag small]).
Local Abbreviation paragraph := (mkTag 5 "p" [] [EString "Text"]).
Local Abbreviation run := (apply_exclusions MiniCss.select).

Lemma removal_loop_removes_matches_witness :
  (footer ∈ [footer; small])
  /\ (uid footer ∈ uids page)
  /\ (len (find_all (decompose_all [footer; small] page)) < len (find_all page))%Z.
Proof.
  assert (He : footer ∈ [footer; small]) by left.
  assert (H : uid footer ∈ uids page)
    by (apply list_elem_of_In; vm_compute; tauto).
  split; [exact He |]. split; [exact H |].
  exact (proj2 (proj2 (removal_loop_removes_matches [footer; small] page))
           footer He H).
Defined.

Lemma removal_loop_skips_absent_witness :
  (uid small ∉ uids (decompose_all [footer] page))
  /\ decompose_all ([footer] ++ small :: []) page
     = decompose_all ([footer] ++ []) page.
Proof.
  assert (H : uid small ∉ uids (decompose_all [footer] page)).
  { intros Hin. apply list_elem_of_In in Hin. vm_compute in Hin.
    repeat (destruct Hin as [Hin | Hin]; [discriminate |]). exact Hin. }
  split; [exact H |].
  exact (removal_loop_skips_absent [footer] [] small page H).
Defined.

Lemma decompose_all_order_irrelevant_witness :
  [footer; paragraph] ≡ₚ [paragraph; footer]
  /\ decompose_all [footer; paragraph] page
     = decompose_all [paragraph; footer] page.
Proof.
  assert (H : [footer; paragraph] ≡ₚ [paragraph; footer]) by apply perm_swap.
  split; [exact H |].
  apply (decompose_all_order_irrelevant _ _ page H).
Defined.

Lemma removal_keeps_empty_elements_empty_witness :
  is_content_element_empty wrapped_article = true
  /\ decompose_all [wrapper] wrapped_article
     = mkTag 1 "article" [] [EComment "note"]
  /\ is_content_element_empty (decompose_all [wrapper] wrapped_article) = true.
Proof.
  assert (H : is_content_element_empty wrapped_article = true)
    by (vm_compute; reflexivity).
  split; [exact H |]. split; [vm_compute; reflexivity |].
  exact (removal_keeps_empty_elements_empty [wrapper] wrapped_article H).
Defined.


Lemma validate_selectors_partition_witness :
  sublist [PyStr "footer"; PyStr ".ad"]
          [PyStr "footer"; PyStr "html"; PyNone; PyStr ".ad"; PyStr "a[b"].
Proof.
  apply (validate_selectors_partition MiniCss.select
           [PyStr "footer"; PyStr "html"; PyNone; PyStr ".ad"; PyStr "a[b"]
           100
           (mkValidationResult
              [valid_of "footer"; valid_of ".ad"]
              [ mkExclusionSelector (PyStr "html") (Some protected_reason);
                mkExclusionSelector (PyStr EmptyString)
                  (Some "Empty or invalid selector");
                mkExclusionSelector (PyStr "a[b")
                  (Some "Invalid CSS selector syntax: Malformed selector: a[b") ]
              5 false)).
  vm_compute. reflexivity.
Defined.

Lemma outcomes_valid_then_rejected_witness :
  exists doc' result applied,
    run page [PyStr "html"; PyStr "footer"] = (doc', inr result)
    /\ selector_results result
       = applied ++ [mkSelectorResult (PyStr "html") false 0 (Some protected_reason)]
    /\ map selector applied = [PyStr "footer"].
Proof.
  destruct (run page [PyStr "html"; PyStr "footer"])
    as [doc' [e | result]] eqn:E; [vm_compute in E; discriminate |].
  destruct (outcomes_valid_then_rejected MiniCss.select page doc'
              [PyStr "html"; PyStr "footer"] result
              (mkValidationResult [valid_of "footer"]
                 [mkExclusionSelector (PyStr "html") (Some protected_reason)]
                 2 false) E)
    as (applied & Hrs & Hsel); [vm_compute; reflexivity |].
  exists doc', result, applied. split; [reflexivity |]. split; assumption.
Defined.

Lemma rejected_selectors_leave_document_witness :
  exists doc' result,
    run page [PyStr "html"; PyNone; PyStr "a[b"] = (doc', inr result)
    /\ doc' = page
    /\ total_elements_removed (summary result) = 0%Z
    /\ failed_selectors (summary result) = 3%Z.
Proof.
  destruct (run page [PyStr "html"; PyNone; PyStr "a[b"])
    as [doc' [e | result]] eqn:E; [vm_compute in E; discriminate |].
  exists doc', result. split; [reflexivity |].
  destruct (rejected_selectors_leave_document MiniCss.select page doc' _ result E)
    as (Hdoc & _ & Hzero & _ & Hfailed & _).
  - intros s Hs.
    repeat (apply elem_of_cons in Hs as [-> | Hs]);
      [left; reflexivity | left; reflexivity
       | right; eexists; vm_compute; reflexivity
       | inversion Hs].
  - split; [exact Hdoc |]. split; [exact Hzero | exact Hfailed].
Defined.

Lemma document_shrinks_by_reported_count_witness :
  exists doc' result,
    run page [PyStr "footer"] = (doc', inr result)
    /\ (len (find_all doc') + total_elements_removed (summary result)
        <= len (find_all page))%Z.
Proof.
  destruct (run page [PyStr "footer"]) as [doc' [e | result]] eqn:E;
    [vm_compute in E; discriminate |].
  exists doc', result. split; [reflexivity |].
  apply (document_shrinks_by_reported_count MiniCss.select MiniCss_sound
           page doc' _ result E).
Defined.


Lemma one_warning_per_failed_selector_witness :
  exists doc' result,
    run page [PyStr "div[unclosed"; PyStr "html"; PyStr "footer"]
    = (doc', inr result)
    /\ len (List.filter is_selector_failure
              (log_exclusion_warnings Demo.format_percent result None))
       = failed_selectors (summary result).
Proof.
  destruct (run page [PyStr "div[unclosed"; PyStr "html"; PyStr "footer"])
    as [doc' [e | result]] eqn:E; [vm_compute in E; discriminate |].
  exists doc', result. split; [reflexivity |].
  apply (one_warning_per_failed_selector Demo.format_percent MiniCss.select
           page doc' _ result None E).
Defined.

Lemma high_removal_warning_comes_with_summary_witness :
  exists doc' result,
    run crowded_page [PyStr ".advertisement"] = (doc', inr result)
    /\ high_removal_warning (summary result) = true
    /\ (0 < total_elements_removed (summary result))%Z.
Proof.
  destruct (run crowded_page [PyStr ".advertisement"])
    as [doc' [e | result]] eqn:E; [vm_compute in E; discriminate |].
  assert (H : high_removal_warning (summary result) = true).
  { vm_compute in E. injection E as _ <-. vm_compute. reflexivity. }
  exists doc', result. split; [reflexivity |]. split; [exact H |].
  apply (high_removal_warning_comes_with_summary Demo.format_percent
           MiniCss.select crowded_page doc' _ result None E H).
Defined.

Lemma exclusion_step_log_shape_witness :
  [PyStr "footer"] <> []
  /\ exists rest,
      step_log (Demo.step [PyStr "footer"])
      = measure_time_enter "exclusion" "obsidian_capture.capture"
          ++ measure_time_exit (1 # 100) 10 "exclusion" "obsidian_capture.capture"
          ++ rest
      /\ Forall (fun r => logger_name r = "obsidian_capture") rest.
Proof.
  assert (H : [PyStr "footer"] <> []) by discriminate.
  split; [exact H |].
  destruct (exclusion_step_log_shape Demo.format_percent Demo.type_name
              Demo.parse Demo.render MiniCss.select "obsidian_capture.capture"
              (1 # 100) 10%Z 11%Z "<html>" [PyStr "footer"] H)
    as (rest & Hlog & Hall & _).
  exists rest. split; [exact Hlog | exact Hall].
Defined.



Lemma elements_excluded_bounded_witness :
  (0 <= elements_excluded (Demo.step [PyStr "footer"; PyStr "p"])
   <= len (find_all (Demo.parse "<html>")))%Z.
Proof.
  apply (elements_excluded_bounded Demo.format_percent Demo.type_name
           Demo.parse Demo.render MiniCss.select "obsidian_capture.capture"
           (1 # 100) 10%Z 11%Z MiniCss_sound "<html>"
           [PyStr "footer"; PyStr "p"]).
Defined.

End FurtherWitnesses.
